(** * OvfEnv: the provisioning descriptor read from ovf-env.xml

    A shallow embedding of [azurelinuxagent/protocol/ovfenv.py]: the
    [OvfEnv] object, its constructor [__init__], its method [parse] and
    the module function [_validate_ovf].

    - Python strings are [string]s (bytes of the UTF-8 text); [None] is
      the [None] of an [option].
    - An object is a record; the code assigns its attributes one at a
      time, so [parse] runs in a state-and-exception monad [M] over a
      heap that holds the object under construction and what the logger
      has been sent so far.  A raised exception keeps the heap as it was
      when it was raised.
    - The four helpers that the module imports from
      [azurelinuxagent.utils.textutil] form the interface [TextUtil];
      the source is embedded over any implementation of it. *)

From Stdlib Require Import String Ascii List Bool Arith Lia.
Import ListNotations.
Local Open Scope string_scope.
Local Open Scope list_scope.

Set Warnings "-register-all".

(** ** Module constants *)

Definition OVF_VERSION : string := "1.0".
Definition OVF_NAME_SPACE : string := "http://schemas.dmtf.org/ovf/environment/1".
Definition WA_NAME_SPACE : string := "http://schemas.microsoft.com/windowsazure".

(** ** Python's string operations used by [parse] *)

(** [c.lower()] on one byte: the letters A-Z move to a-z, every other
    byte stays.  On text that is not ASCII Python may change more, but
    never into one of the letters of ["true"], the only word the result
    is compared with. *)
Definition lower_ascii (c : ascii) : ascii :=
  let n := nat_of_ascii c in
  if Nat.leb 65 n && Nat.leb n 90 then ascii_of_nat (n + 32) else c.

(** [s.lower()] *)
Fixpoint lower (s : string) : string :=
  match s with
  | EmptyString => EmptyString
  | String c s' => String (lower_ascii c) (lower s')
  end.

(** [a > b] on strings: Python orders strings lexicographically by
    code point, which on UTF-8 bytes is the order of [String.compare]. *)
Definition str_gt (a b : string) : bool := String.ltb b a.

(** ["Failed to parse OVF XML: {0}".format(msg)] *)
Definition format_failed (msg : string) : string :=
  "Failed to parse OVF XML: " ++ msg.

(** ** Exceptions and the logger *)

Inductive Exn : Type :=
| ValueError (msg : string)      (* Python's built-in ValueError *)
| ProtocolError (msg : string)   (* azurelinuxagent.protocol.common.ProtocolError *)
| ExpatError.                    (* raised inside parse_doc on text that is not XML *)

(** The error kinds by the names the specification gives them. *)
Inductive ErrorKind : Type :=
| InvalidInputError
| StructuralValidationError
| MalformedXmlError.

Definition kind_of (e : Exn) : ErrorKind :=
  match e with
  | ValueError _ => InvalidInputError
  | ProtocolError _ => StructuralValidationError
  | ExpatError => MalformedXmlError
  end.

(** One call of the logging collaborator. *)
Inductive LogRecord : Type :=
| Verb (msg : string)   (* logger.verb *)
| Warn (msg : string).  (* logger.warn *)

Definition MSG_LOAD : string := "Load ovf-env.xml".
Definition MSG_NEWER : string :=
  "Newer provisioning configuration detected. " ++
  "Please consider updating waagent".

(** ** The helpers imported from textutil *)

(** Modelled from the spec: the interface of
    azurelinuxagent/utils/textutil.py, which ovfenv.py imports
    ([parse_doc], [findall], [find], [findtext]) and which is not among
    the sources.  The four functions are parameters.  [parse_doc]
    answers [None] where the Python function raises on text that is not
    well-formed XML; [find] and [findtext] answer [None] where the
    Python functions return [None].  The lookups take the root node,
    the tag and the namespace, in the order of the Python signature.

    [findtext_nonempty] is what the specification's example says of an
    element without text: it reads as unset, never as the empty
    string. *)
Class TextUtil : Type := {
  Node : Type;
  parse_doc : string -> option Node;
  findall : Node -> string -> string -> list Node;
  find : Node -> string -> string -> option Node;
  findtext : Node -> string -> string -> option string;
  findtext_nonempty :
    forall root tag namespace, findtext root tag namespace <> Some EmptyString
}.

(** ** The object *)

Definition PubKey : Type := (option string * option string * option string)%type.
Definition KeyPair : Type := (option string * option string)%type.

Record OvfEnv : Type := mkOvfEnv {
  hostname : option string;
  username : option string;
  user_password : option string;
  customdata : option string;
  disable_ssh_password_auth : bool;
  ssh_pubkeys : list PubKey;
  ssh_keypairs : list KeyPair
}.

(** What [__init__] assigns before it calls [parse]. *)
Definition fresh : OvfEnv :=
  {| hostname := None;
     username := None;
     user_password := None;
     customdata := None;
     disable_ssh_password_auth := true;
     ssh_pubkeys := [];
     ssh_keypairs := [] |}.

(** ** The monad of a method body *)

Record Heap : Type := mkHeap {
  self : OvfEnv;
  logged : list LogRecord
}.

Definition M (A : Type) : Type := Heap -> (Exn + A) * Heap.

Definition ret {A} (a : A) : M A := fun h => (inr a, h).

Definition raise {A} (e : Exn) : M A := fun h => (inl e, h).

Definition bind {A B} (m : M A) (k : A -> M B) : M B :=
  fun h =>
    match m h with
    | (inl e, h') => (inl e, h')
    | (inr a, h') => k a h'
    end.

Declare Scope ovf_scope.
Delimit Scope ovf_scope with ovf.
Notation "x <- m ;; k" := (bind m (fun x => k))
  (at level 61, m at next level, right associativity) : ovf_scope.
Notation "m ;; k" := (bind m (fun _ => k))
  (at level 61, right associativity) : ovf_scope.
Local Open Scope ovf_scope.

(** [logger.verb(msg)] and [logger.warn(msg)] *)
Definition logger (r : LogRecord) : M unit :=
  fun h => (inr tt, {| self := self h; logged := logged h ++ [r] |}).

(** [self.<attribute>] *)
Definition getattr {A} (f : OvfEnv -> A) : M A :=
  fun h => (inr (f (self h)), h).

(** [self.<attribute> = v] *)
Definition assign (f : OvfEnv -> OvfEnv) : M unit :=
  fun h => (inr tt, {| self := f (self h); logged := logged h |}).

Definition set_hostname (v : option string) (o : OvfEnv) : OvfEnv :=
  {| hostname := v; username := username o; user_password := user_password o;
     customdata := customdata o;
     disable_ssh_password_auth := disable_ssh_password_auth o;
     ssh_pubkeys := ssh_pubkeys o; ssh_keypairs := ssh_keypairs o |}.

Definition set_username (v : option string) (o : OvfEnv) : OvfEnv :=
  {| hostname := hostname o; username := v; user_password := user_password o;
     customdata := customdata o;
     disable_ssh_password_auth := disable_ssh_password_auth o;
     ssh_pubkeys := ssh_pubkeys o; ssh_keypairs := ssh_keypairs o |}.

Definition set_user_password (v : option string) (o : OvfEnv) : OvfEnv :=
  {| hostname := hostname o; username := username o; user_password := v;
     customdata := customdata o;
     disable_ssh_password_auth := disable_ssh_password_auth o;
     ssh_pubkeys := ssh_pubkeys o; ssh_keypairs := ssh_keypairs o |}.

Definition set_customdata (v : option string) (o : OvfEnv) : OvfEnv :=
  {| hostname := hostname o; username := username o;
     user_password := user_password o; customdata := v;
     disable_ssh_password_auth := disable_ssh_password_auth o;
     ssh_pubkeys := ssh_pubkeys o; ssh_keypairs := ssh_keypairs o |}.

Definition set_disable_ssh_password_auth (v : bool) (o : OvfEnv) : OvfEnv :=
  {| hostname := hostname o; username := username o;
     user_password := user_password o; customdata := customdata o;
     disable_ssh_password_auth := v;
     ssh_pubkeys := ssh_pubkeys o; ssh_keypairs := ssh_keypairs o |}.

(** [self.ssh_pubkeys.append(k)] *)
Definition append_pubkey (k : PubKey) (o : OvfEnv) : OvfEnv :=
  {| hostname := hostname o; username := username o;
     user_password := user_password o; customdata := customdata o;
     disable_ssh_password_auth := disable_ssh_password_auth o;
     ssh_pubkeys := ssh_pubkeys o ++ [k]; ssh_keypairs := ssh_keypairs o |}.

(** [self.ssh_keypairs.append(k)] *)
Definition append_keypair (k : KeyPair) (o : OvfEnv) : OvfEnv :=
  {| hostname := hostname o; username := username o;
     user_password := user_password o; customdata := customdata o;
     disable_ssh_password_auth := disable_ssh_password_auth o;
     ssh_pubkeys := ssh_pubkeys o; ssh_keypairs := ssh_keypairs o ++ [k] |}.

(** [for x in xs: body(x)] *)
Fixpoint for_each {A} (xs : list A) (body : A -> M unit) : M unit :=
  match xs with
  | [] => ret tt
  | x :: xs' => body x ;; for_each xs' body
  end.

(** ** ovfenv.py *)

(** [_validate_ovf(val, msg)] raises when [val] is [None].  When it
    returns, the caller goes on with the same [val], now known not to be
    [None]: the embedding hands that value back. *)
Definition _validate_ovf {A} (val : option A) (msg : string) : M A :=
  match val with
  | None => raise (ProtocolError (format_failed msg))
  | Some v => ret v
  end.

Section Source.
Context {TU : TextUtil}.

(** [OvfEnv.parse(self, xml_text)] *)
Definition parse (xml_text : string) : M unit :=
  let wans := WA_NAME_SPACE in
  let ovfns := OVF_NAME_SPACE in
  xml_doc <- match parse_doc xml_text with
             | None => raise ExpatError
             | Some d => ret d
             end ;;
  environment <- _validate_ovf (find xml_doc "Environment" ovfns)
                               "Environment not found" ;;
  section <- _validate_ovf (find environment "ProvisioningSection" wans)
                           "ProvisioningSection not found" ;;
  version <- _validate_ovf (findtext environment "Version" wans)
                           "Version not found" ;;
  (if str_gt version OVF_VERSION then logger (Warn MSG_NEWER) else ret tt) ;;
  conf_set <- _validate_ovf (find section "LinuxProvisioningConfigurationSet" wans)
                            "LinuxProvisioningConfigurationSet not found" ;;
  assign (set_hostname (findtext conf_set "HostName" wans)) ;;
  self_hostname <- getattr hostname ;;
  _validate_ovf self_hostname "HostName not found" ;;
  assign (set_username (findtext conf_set "UserName" wans)) ;;
  self_username <- getattr username ;;
  _validate_ovf self_username "UserName not found" ;;
  assign (set_user_password (findtext conf_set "UserPassword" wans)) ;;
  assign (set_customdata (findtext conf_set "CustomData" wans)) ;;
  let auth_option := findtext conf_set "DisableSshPasswordAuthentication" wans in
  (if match auth_option with
      | Some a => String.eqb (lower a) "true"
      | None => false
      end
   then assign (set_disable_ssh_password_auth true)
   else assign (set_disable_ssh_password_auth false)) ;;
  let public_keys := findall conf_set "PublicKey" wans in
  for_each public_keys (fun public_key =>
    let path := findtext public_key "Path" wans in
    let fingerprint := findtext public_key "Fingerprint" wans in
    let value := findtext public_key "Value" wans in
    assign (append_pubkey (path, fingerprint, value))) ;;
  let keypairs := findall conf_set "KeyPair" wans in
  for_each keypairs (fun keypair =>
    let path := findtext keypair "Path" wans in
    let fingerprint := findtext keypair "Fingerprint" wans in
    assign (append_keypair (path, fingerprint))).

(** [OvfEnv(xml_text)], that is [OvfEnv.__init__]: given what the
    logger holds, the new object or the exception that left the
    constructor, and what the logger holds afterwards.  When the
    constructor raises, the caller gets no object. *)
Definition __init__ (xml_text : option string) (log : list LogRecord)
  : (Exn + OvfEnv) * list LogRecord :=
  match xml_text with
  | None => (inl (ValueError "ovf-env is None"), log)
  | Some text =>
      let body := logger (Verb MSG_LOAD) ;; parse text in
      match body {| self := fresh; logged := log |} with
      | (inl e, h) => (inl e, logged h)
      | (inr _, h) => (inr (self h), logged h)
      end
  end.

(** A caller, not part of ovfenv.py: [k] calls of [parse] on one
    object, one after the other. *)
Fixpoint parse_times (k : nat) (xml_text : string) : M unit :=
  match k with
  | O => ret tt
  | S k' => parse xml_text ;; parse_times k' xml_text
  end.

End Source.

(** ** A document model for the helpers *)

Module Dom.

(** Modelled from the spec: the tree that [parse_doc] builds and the
    lookups [findall], [find] and [findtext] of
    azurelinuxagent/utils/textutil.py, which ovfenv.py imports and which
    is not among the sources.  The specification describes them as a
    parse of the text into a DOM-like tree and as namespace-qualified
    tree-walking lookups by tag and namespace under a node, the first
    match for [find], all matches in document order for [findall], and
    the text of the first match for [findtext], unset when the element
    is absent or has no text.

    A node is the document, an element with its namespace and local
    name, or a run of character data.  Character data is never empty: a
    reader reports text only where there is some. *)
Inductive DomNode : Type :=
| Document (children : list DomNode)
| Element (namespaceURI : option string) (localName : string)
          (children : list DomNode)
| Text (first : ascii) (rest : string).

Definition childNodes (n : DomNode) : list DomNode :=
  match n with
  | Document cs => cs
  | Element _ _ cs => cs
  | Text _ _ => []
  end.

Definition is_element (tag namespace : string) (n : DomNode) : bool :=
  match n with
  | Element (Some ns) name _ => String.eqb ns namespace && String.eqb name tag
  | _ => false
  end.

(** Every node below [n], in document order. *)
Fixpoint below (n : DomNode) : list DomNode :=
  let under := fix under (cs : list DomNode) : list DomNode :=
    match cs with
    | [] => []
    | c :: cs' => c :: below c ++ under cs'
    end in
  match n with
  | Document cs => under cs
  | Element _ _ cs => under cs
  | Text _ _ => []
  end.

Definition findall (root : DomNode) (tag namespace : string) : list DomNode :=
  filter (is_element tag namespace) (below root).

Definition find (root : DomNode) (tag namespace : string) : option DomNode :=
  match findall root tag namespace with
  | [] => None
  | n :: _ => Some n
  end.

(** The data of the first text node among the children. *)
Fixpoint first_text (cs : list DomNode) : option string :=
  match cs with
  | [] => None
  | Text c s :: _ => Some (String c s)
  | _ :: cs' => first_text cs'
  end.

Definition gettext (node : DomNode) : option string :=
  first_text (childNodes node).

Definition findtext (root : DomNode) (tag namespace : string) : option string :=
  match find root tag namespace with
  | None => None
  | Some node => gettext node
  end.

(** *** Reading the text

    Modelled from the spec: step 1 of the algorithm, the parse of the
    document text into the tree, for the part of XML that a provisioning
    document is written in: an optional declaration, elements with
    attributes, namespace declarations in force below the element that
    carries them, and character data.  Comments, CDATA sections,
    document types and entity references are outside this part and are
    refused like malformed text.  Attributes other than namespace
    declarations are read and dropped; ovfenv.py looks at none. *)

Definition is_space (c : ascii) : bool :=
  match nat_of_ascii c with
  | 32 | 9 | 10 | 13 => true
  | _ => false
  end.

Fixpoint all_space (s : string) : bool :=
  match s with
  | EmptyString => true
  | String c s' => is_space c && all_space s'
  end.

Definition snoc (s : string) (c : ascii) : string := s ++ String c EmptyString.

(** The text cut at its angle brackets. *)
Inductive Piece : Type :=
| Markup (body : string)
| Chars (first : ascii) (rest : string).

Definition chars (s : string) : list Piece :=
  match s with
  | EmptyString => []
  | String c s' => [Chars c s']
  end.

Fixpoint pieces (in_markup : bool) (acc : string) (s : string)
  : option (list Piece) :=
  match s with
  | EmptyString => if in_markup then None else Some (chars acc)
  | String c s' =>
      if in_markup then
        if Ascii.eqb c ">" then
          option_map (cons (Markup acc)) (pieces false EmptyString s')
        else if Ascii.eqb c "<" then None
        else pieces true (snoc acc c) s'
      else
        if Ascii.eqb c "<" then
          option_map (app (chars acc)) (pieces true EmptyString s')
        else if Ascii.eqb c "&" then None
        else pieces false (snoc acc c) s'
  end.

(** The attributes of a start tag, and whether the tag closes itself. *)
Inductive AttrState : Type :=
| Gap
| AttrName (name : string)
| Quote (name : string)
| AttrValue (name : string) (quote : ascii) (value : string)
| After.

Fixpoint attributes (st : AttrState) (s : string)
  : option (list (string * string) * bool) :=
  match s with
  | EmptyString =>
      match st with
      | Gap | After => Some ([], false)
      | _ => None
      end
  | String c s' =>
      match st with
      | Gap | After =>
          if is_space c then attributes Gap s'
          else if Ascii.eqb c "/" then
            match s' with EmptyString => Some ([], true) | _ => None end
          else match st with
               | Gap => attributes (AttrName (String c EmptyString)) s'
               | _ => None
               end
      | AttrName n =>
          if Ascii.eqb c "=" then attributes (Quote n) s'
          else if is_space c then None
          else attributes (AttrName (snoc n c)) s'
      | Quote n =>
          if Ascii.eqb c "'" || Ascii.eqb c (ascii_of_nat 34)
          then attributes (AttrValue n c EmptyString) s'
          else None
      | AttrValue n q v =>
          if Ascii.eqb c q then
            match attributes After s' with
            | Some (kvs, closed) => Some ((n, v) :: kvs, closed)
            | None => None
            end
          else attributes (AttrValue n q (snoc v c)) s'
      end
  end.

(** The name that starts a tag body, and the rest of the body. *)
Fixpoint tag_name (acc : string) (s : string) : string * string :=
  match s with
  | EmptyString => (acc, EmptyString)
  | String c s' =>
      if is_space c || Ascii.eqb c "/" then (acc, s)
      else tag_name (snoc acc c) s'
  end.

(** [prefix:local] cut at its first colon. *)
Fixpoint qualified (acc : string) (s : string) : option string * string :=
  match s with
  | EmptyString => (None, acc)
  | String c s' =>
      if Ascii.eqb c ":" then (Some acc, s')
      else qualified (snoc acc c) s'
  end.

(** Namespace declarations in force: prefix to URI, the default
    namespace under the empty prefix, the innermost first. *)
Definition Scope : Type := list (string * string).

Fixpoint lookup (p : string) (sc : Scope) : option string :=
  match sc with
  | [] => None
  | (q, uri) :: sc' => if String.eqb p q then Some uri else lookup p sc'
  end.

Fixpoint declare (attrs : list (string * string)) (sc : Scope) : Scope :=
  match attrs with
  | [] => sc
  | (k, v) :: attrs' =>
      match qualified EmptyString k with
      | (None, "xmlns") => (EmptyString, v) :: declare attrs' sc
      | (Some "xmlns", p) => (p, v) :: declare attrs' sc
      | _ => declare attrs' sc
      end
  end.

(** The namespace and local name of an element; [None] for a prefix
    that nothing declares. *)
Definition resolve (q : string) (sc : Scope) : option (option string * string) :=
  match qualified EmptyString q with
  | (None, l) =>
      match lookup EmptyString sc with
      | Some EmptyString | None => Some (None, l)
      | Some uri => Some (Some uri, l)
      end
  | (Some p, l) =>
      match lookup p sc with
      | Some uri => Some (Some uri, l)
      | None => None
      end
  end.

(** An element whose end tag has not been read yet. *)
Record Open : Type := mkOpen {
  open_name : string;
  open_ns : option string;
  open_local : string;
  open_scope : Scope;
  open_children : list DomNode
}.

Definition add_child (n : DomNode) (o : Open) : Open :=
  {| open_name := open_name o; open_ns := open_ns o;
     open_local := open_local o; open_scope := open_scope o;
     open_children := open_children o ++ [n] |}.

(** A finished node goes to the innermost open element, or to the
    document when none is open. *)
Definition place (n : DomNode) (stack : list Open) (top : list DomNode)
  : list Open * list DomNode :=
  match stack with
  | [] => ([], top ++ [n])
  | o :: stack' => (add_child n o :: stack', top)
  end.

Definition scope_of (stack : list Open) : Scope :=
  match stack with
  | [] => []
  | o :: _ => open_scope o
  end.

Fixpoint build (ps : list Piece) (stack : list Open) (top : list DomNode)
  : option DomNode :=
  match ps with
  | [] =>
      match stack, top with
      | [], [Element ns l cs] => Some (Document [Element ns l cs])
      | _, _ => None
      end
  | Chars c s :: ps' =>
      match stack with
      | [] => if all_space (String c s) then build ps' [] top else None
      | o :: stack' => build ps' (add_child (Text c s) o :: stack') top
      end
  | Markup EmptyString :: _ => None
  | Markup (String c body as m) :: ps' =>
      if Ascii.eqb c "?" then build ps' stack top
      else if Ascii.eqb c "!" then None
      else if Ascii.eqb c "/" then
        match stack with
        | [] => None
        | o :: stack' =>
            if String.eqb (fst (tag_name EmptyString body)) (open_name o)
               && all_space (snd (tag_name EmptyString body))
            then let (stack'', top') :=
                   place (Element (open_ns o) (open_local o) (open_children o))
                         stack' top in
                 build ps' stack'' top'
            else None
        end
      else
        let (q, more) := tag_name EmptyString m in
        match attributes Gap more with
        | None => None
        | Some (attrs, closed) =>
            let sc := declare attrs (scope_of stack) in
            match resolve q sc with
            | None => None
            | Some (ns, l) =>
                if closed then
                  let (stack', top') := place (Element ns l []) stack top in
                  build ps' stack' top'
                else
                  build ps' ({| open_name := q; open_ns := ns; open_local := l;
                                open_scope := sc; open_children := [] |} :: stack)
                        top
            end
        end
  end.

Definition parse_doc (xml_text : string) : option DomNode :=
  match pieces false EmptyString xml_text with
  | None => None
  | Some ps => build ps [] []
  end.

End Dom.

(** ** Documents to run the code on *)

Module Sample.

Definition document (inner : string) : string :=
  "<?xml version='1.0' encoding='utf-8'?>" ++
  "<Environment xmlns='http://schemas.dmtf.org/ovf/environment/1'" ++
  " xmlns:wa='http://schemas.microsoft.com/windowsazure'>" ++
  inner ++ "</Environment>".

Definition section (inner : string) : string :=
  "<wa:ProvisioningSection>" ++ inner ++ "</wa:ProvisioningSection>".

Definition version (v : string) : string :=
  "<wa:Version>" ++ v ++ "</wa:Version>".

Definition conf_set (inner : string) : string :=
  "<LinuxProvisioningConfigurationSet" ++
  " xmlns='http://schemas.microsoft.com/windowsazure'>" ++
  inner ++ "</LinuxProvisioningConfigurationSet>".

Definition host_and_user : string :=
  "<HostName>myhost</HostName><UserName>azureuser</UserName>".

(** The end-to-end example of the specification: version 1.0, a host
    and a user, no password, password authentication disabled, and one
    public key that has a fingerprint and an empty path and value. *)
Definition example : string :=
  document (section (version "1.0" ++ conf_set (
    host_and_user ++
    "<DisableSshPasswordAuthentication>true</DisableSshPasswordAuthentication>" ++
    "<SSH><PublicKeys><PublicKey>" ++
    "<Fingerprint>ABCD1234</Fingerprint><Path></Path><Value/>" ++
    "</PublicKey></PublicKeys></SSH>"))).

(** Two public keys, the second with no field at all, and one key pair. *)
Definition with_keys : string :=
  document (section (version "1.0" ++ conf_set (
    host_and_user ++
    "<SSH><PublicKeys>" ++
    "<PublicKey><Fingerprint>AA</Fingerprint><Path>/a</Path><Value>k</Value></PublicKey>" ++
    "<PublicKey/>" ++
    "</PublicKeys><KeyPairs>" ++
    "<KeyPair><Fingerprint>BB</Fingerprint></KeyPair>" ++
    "</KeyPairs></SSH>"))).

(** A later version, and an upper-case flag. *)
Definition newer : string :=
  document (section (version "1.1" ++ conf_set (
    host_and_user ++
    "<DisableSshPasswordAuthentication>TRUE</DisableSshPasswordAuthentication>"))).

(** One document for each required element, with that element left out. *)
Definition no_environment : string :=
  "<Other xmlns='http://schemas.dmtf.org/ovf/environment/1'/>".
Definition no_section : string := document (version "1.0").
Definition no_version : string := document (section (conf_set host_and_user)).
Definition no_conf_set : string := document (section (version "1.0")).
Definition no_hostname : string :=
  document (section (version "1.0" ++
    conf_set "<HostName></HostName><UserName>azureuser</UserName>")).
Definition no_username : string :=
  document (section (version "1.0" ++ conf_set "<HostName>myhost</HostName>")).

(** What the constructor is to return for the documents above. *)
Definition example_descriptor : OvfEnv :=
  {| hostname := Some "myhost";
     username := Some "azureuser";
     user_password := None;
     customdata := None;
     disable_ssh_password_auth := true;
     ssh_pubkeys := [(None, Some "ABCD1234", None)];
     ssh_keypairs := [] |}.

Definition with_keys_descriptor : OvfEnv :=
  {| hostname := Some "myhost";
     username := Some "azureuser";
     user_password := None;
     customdata := None;
     disable_ssh_password_auth := false;
     ssh_pubkeys := [(Some "/a", Some "AA", Some "k"); (None, None, None)];
     ssh_keypairs := [(None, Some "BB")] |}.

Definition newer_descriptor : OvfEnv :=
  {| hostname := Some "myhost";
     username := Some "azureuser";
     user_password := None;
     customdata := None;
     disable_ssh_password_auth := true;
     ssh_pubkeys := [];
     ssh_keypairs := [] |}.

End Sample.

(** ** Reading the result off the document *)

Section Reading.
Context {TU : TextUtil}.

(** What one [PublicKey] element and one [KeyPair] element contribute. *)
Definition read_pubkey (public_key : Node) : PubKey :=
  (findtext public_key "Path" WA_NAME_SPACE,
   findtext public_key "Fingerprint" WA_NAME_SPACE,
   findtext public_key "Value" WA_NAME_SPACE).

Definition read_keypair (keypair : Node) : KeyPair :=
  (findtext keypair "Path" WA_NAME_SPACE,
   findtext keypair "Fingerprint" WA_NAME_SPACE).

(** The text is ["true"] up to the case of its letters. *)
Definition says_true (auth_option : option string) : bool :=
  match auth_option with
  | Some a => String.eqb (lower a) "true"
  | None => false
  end.

(** The first required element that the fixed path does not find. *)
Inductive Missing (xml_doc : Node) : string -> Prop :=
| missing_environment :
    find xml_doc "Environment" OVF_NAME_SPACE = None ->
    Missing xml_doc "Environment"
| missing_section environment :
    find xml_doc "Environment" OVF_NAME_SPACE = Some environment ->
    find environment "ProvisioningSection" WA_NAME_SPACE = None ->
    Missing xml_doc "ProvisioningSection"
| missing_version environment section :
    find xml_doc "Environment" OVF_NAME_SPACE = Some environment ->
    find environment "ProvisioningSection" WA_NAME_SPACE = Some section ->
    findtext environment "Version" WA_NAME_SPACE = None ->
    Missing xml_doc "Version"
| missing_conf_set environment section version :
    find xml_doc "Environment" OVF_NAME_SPACE = Some environment ->
    find environment "ProvisioningSection" WA_NAME_SPACE = Some section ->
    findtext environment "Version" WA_NAME_SPACE = Some version ->
    find section "LinuxProvisioningConfigurationSet" WA_NAME_SPACE = None ->
    Missing xml_doc "LinuxProvisioningConfigurationSet"
| missing_hostname environment section version conf_set :
    find xml_doc "Environment" OVF_NAME_SPACE = Some environment ->
    find environment "ProvisioningSection" WA_NAME_SPACE = Some section ->
    findtext environment "Version" WA_NAME_SPACE = Some version ->
    find section "LinuxProvisioningConfigurationSet" WA_NAME_SPACE = Some conf_set ->
    findtext conf_set "HostName" WA_NAME_SPACE = None ->
    Missing xml_doc "HostName"
| missing_username environment section version conf_set host :
    find xml_doc "Environment" OVF_NAME_SPACE = Some environment ->
    find environment "ProvisioningSection" WA_NAME_SPACE = Some section ->
    findtext environment "Version" WA_NAME_SPACE = Some version ->
    find section "LinuxProvisioningConfigurationSet" WA_NAME_SPACE = Some conf_set ->
    findtext conf_set "HostName" WA_NAME_SPACE = Some host ->
    findtext conf_set "UserName" WA_NAME_SPACE = None ->
    Missing xml_doc "UserName".

(** The fixed path finds every required element: the version text and
    the configuration set that it reaches. *)
Inductive Reaches (xml_doc : Node) (version : string) (conf_set : Node) : Prop :=
| reaches environment section :
    find xml_doc "Environment" OVF_NAME_SPACE = Some environment ->
    find environment "ProvisioningSection" WA_NAME_SPACE = Some section ->
    findtext environment "Version" WA_NAME_SPACE = Some version ->
    find section "LinuxProvisioningConfigurationSet" WA_NAME_SPACE = Some conf_set ->
    Reaches xml_doc version conf_set.

(** The object that [parse] leaves when it started from [old] and found
    host [host] and user [user] in the configuration set. *)
Definition parsed (old : OvfEnv) (conf_set : Node) (host user : string) : OvfEnv :=
  {| hostname := Some host;
     username := Some user;
     user_password := findtext conf_set "UserPassword" WA_NAME_SPACE;
     customdata := findtext conf_set "CustomData" WA_NAME_SPACE;
     disable_ssh_password_auth :=
       says_true (findtext conf_set "DisableSshPasswordAuthentication" WA_NAME_SPACE);
     ssh_pubkeys :=
       ssh_pubkeys old ++ map read_pubkey (findall conf_set "PublicKey" WA_NAME_SPACE);
     ssh_keypairs :=
       ssh_keypairs old ++ map read_keypair (findall conf_set "KeyPair" WA_NAME_SPACE) |}.

(** What the version check sends to the logger. *)
Definition version_log (version : string) : list LogRecord :=
  if str_gt version OVF_VERSION then [Warn MSG_NEWER] else [].

End Reading.

(** ** The functions of the module

    [get_ovf_env] and [copy_ovf_env] work through collaborators:
    [OSUTIL], [fileutil], [os.path.isfile], [shutil.copyfile] and the
    logger.  A call of a collaborator is a [Call]; what the collaborator
    does with it and what it answers is a parameter, [perform], over a
    world that the embedding knows nothing of.  Besides its result and
    the world it leaves, an action gives the calls it made, in order. *)

Definition OVF_FILE_NAME : string := "ovf-env.xml".

(** Tag file to indicate usage of metadata protocol *)
Definition TAG_FILE_NAME : string := "useMetadataEndpoint.tag".

(** What can leave one of the two functions: an exception of the
    constructor's, IOError, OSUtilError, or any other exception of a
    collaborator.  The text of an exception is what [text(e)] gives. *)
Inductive Exc : Type :=
| Ovf (e : Exn)
| IOError (msg : string)
| OSUtilError (msg : string)
| OtherError (msg : string).

Inductive Call : Type :=
| mount_dvd                                   (* OSUTIL.mount_dvd() *)
| get_ovf_env_file_path_on_dvd                (* OSUTIL.get_ovf_env_file_path_on_dvd() *)
| get_lib_dir                                 (* OSUTIL.get_lib_dir() *)
| get_dvd_mount_point                         (* OSUTIL.get_dvd_mount_point() *)
| umount_dvd                                  (* OSUTIL.umount_dvd() *)
| eject_dvd                                   (* OSUTIL.eject_dvd() *)
| read_file (filepath : string) (remove_bom : option bool)
                                              (* fileutil.read_file; None: argument not given *)
| write_file (filepath contents : string)     (* fileutil.write_file *)
| isfile (path : string)                      (* os.path.isfile *)
| copyfile (src dst : string)                 (* shutil.copyfile *)
| logger_verb (msg : string)                  (* logger.verb *)
| logger_warn (msg : string)                  (* logger.warn *)
| logger_info (msg : string).                 (* logger.info *)

Definition Answer (c : Call) : Type :=
  match c with
  | get_ovf_env_file_path_on_dvd | get_lib_dir | get_dvd_mount_point => string
  | read_file _ _ => string
  | isfile _ => bool
  | _ => unit
  end.

Class Collaborators : Type := {
  World : Type;
  perform : forall c : Call, World -> (Exc + Answer c) * World
}.

(** [os.path.join(a, b)] on a POSIX system. *)
Fixpoint ends_with_slash (a : string) : bool :=
  match a with
  | EmptyString => false
  | String c EmptyString => Ascii.eqb c "/"
  | String _ a' => ends_with_slash a'
  end.

Definition path_join (a b : string) : string :=
  if String.prefix "/" b then b
  else match a with
       | EmptyString => b
       | _ => if ends_with_slash a then (a ++ b)%string
              else (a ++ "/" ++ b)%string
       end.

(** *** [re.sub("<UserPassword>.*?<", "<UserPassword>*<", ovfxml)] *)

Definition PASSWORD_PATTERN_OPEN : string := "<UserPassword>".
Definition PASSWORD_REPLACEMENT : string := "<UserPassword>*<".

(** The rest of [s] after the literal [p], when [s] starts with it. *)
Fixpoint after_literal (p s : string) : option string :=
  match p, s with
  | EmptyString, _ => Some s
  | String a p', String b s' =>
      if Ascii.eqb a b then after_literal p' s' else None
  | String _ _, EmptyString => None
  end.

(** [.*?<]: the fewest characters, none of them a line feed (the dot
    matches no line feed), and then the first [<]; the rest after it. *)
Fixpoint after_lazy_dots (s : string) : option string :=
  match s with
  | EmptyString => None
  | String c s' =>
      if Ascii.eqb c "<" then Some s'
      else if Ascii.eqb c (ascii_of_nat 10) then None
      else after_lazy_dots s'
  end.

(** The pattern matched at the start of [s]: the rest after the match. *)
Definition match_password (s : string) : option string :=
  match after_literal PASSWORD_PATTERN_OPEN s with
  | Some s' => after_lazy_dots s'
  | None => None
  end.

(** The leftmost match is replaced and the scan goes on after it; where
    no match starts, one character is copied.  The fuel is the number
    of steps left, one more than the length being enough. *)
Fixpoint sub_password (fuel : nat) (s : string) : string :=
  match fuel with
  | O => s
  | S fuel' =>
      match match_password s with
      | Some rest => (PASSWORD_REPLACEMENT ++ sub_password fuel' rest)%string
      | None =>
          match s with
          | EmptyString => EmptyString
          | String c s' => String c (sub_password fuel' s')
          end
      end
  end.

Definition re_sub_password (ovfxml : string) : string :=
  sub_password (S (String.length ovfxml)) ovfxml.

Section Functions.
Context {TU : TextUtil} {CO : Collaborators}.

(** *** Actions *)

Definition Act (A : Type) : Type := World -> (Exc + A) * World * list Call.

Definition act_ret {A} (a : A) : Act A := fun w => (inr a, w, []).

Definition act_raise {A} (e : Exc) : Act A := fun w => (inl e, w, []).

Definition act_bind {A B} (m : Act A) (k : A -> Act B) : Act B :=
  fun w =>
    match m w with
    | (inl e, w', t) => (inl e, w', t)
    | (inr a, w', t) =>
        match k a w' with
        | (r, w'', t') => (r, w'', t ++ t')
        end
    end.

(** [try: m  except ...: handler] *)
Definition try_except {A} (m : Act A) (handler : Exc -> Act A) : Act A :=
  fun w =>
    match m w with
    | (inl e, w', t) =>
        match handler e w' with
        | (r, w'', t') => (r, w'', t ++ t')
        end
    | (inr a, w', t) => (inr a, w', t)
    end.

Definition call (c : Call) : Act (Answer c) :=
  fun w => match perform c w with (r, w') => (r, w', [c]) end.

Declare Scope act_scope.
Notation "x <- m ;; k" := (act_bind m (fun x => k))
  (at level 61, m at next level, right associativity) : act_scope.
Notation "m ;; k" := (act_bind m (fun _ => k))
  (at level 61, right associativity) : act_scope.
Local Open Scope act_scope.

Definition logger_call (r : LogRecord) : Call :=
  match r with
  | Verb msg => logger_verb msg
  | Warn msg => logger_warn msg
  end.

Fixpoint send (records : list LogRecord) : Act unit :=
  match records with
  | [] => act_ret tt
  | r :: records' => call (logger_call r) ;; send records'
  end.

(** [OvfEnv(xml_text)] as an action: the constructor touches the world
    through the logger only, so it is [__init__] with its records sent
    to the logger one by one, and then its object or its exception. *)
Definition new_OvfEnv (xml_text : string) : Act OvfEnv :=
  send (snd (__init__ (Some xml_text) [])) ;;
  match fst (__init__ (Some xml_text) []) with
  | inl e => act_raise (Ovf e)
  | inr ovfenv => act_ret ovfenv
  end.

(** [get_ovf_env()] *)
Definition get_ovf_env : Act OvfEnv :=
  lib_dir <- call get_lib_dir ;;
  let ovf_file_path := path_join lib_dir OVF_FILE_NAME in
  is_file <- call (isfile ovf_file_path) ;;
  if is_file : bool then
    xml_text <- call (read_file ovf_file_path None) ;;
    new_OvfEnv xml_text
  else
    act_raise (Ovf (ProtocolError "ovf-env.xml is missing.")).

(** The body of the [try] in [copy_ovf_env]. *)
Definition copy_ovf_env_try : Act OvfEnv :=
  call mount_dvd ;;
  ovf_file_path_on_dvd <- call get_ovf_env_file_path_on_dvd ;;
  ovfxml <- call (read_file ovf_file_path_on_dvd (Some true)) ;;
  ovfenv <- new_OvfEnv ovfxml ;;
  let ovfxml := re_sub_password ovfxml in
  lib_dir <- call get_lib_dir ;;
  let ovf_file_path := path_join lib_dir OVF_FILE_NAME in
  call (write_file ovf_file_path ovfxml) ;;
  dvd_mount_point <- call get_dvd_mount_point ;;
  let tag_file_path_on_dvd := path_join dvd_mount_point TAG_FILE_NAME in
  is_file <- call (isfile tag_file_path_on_dvd) ;;
  (if is_file : bool then
     call (logger_info ("Found " ++ TAG_FILE_NAME ++ " in provisioning ISO")) ;;
     lib_dir <- call get_lib_dir ;;
     let tag_file_path := path_join lib_dir TAG_FILE_NAME in
     call (copyfile tag_file_path_on_dvd tag_file_path)
   else act_ret tt) ;;
  call umount_dvd ;;
  call eject_dvd ;;
  act_ret ovfenv.

(** [copy_ovf_env()]: the two [except] clauses turn IOError and
    OSUtilError into ProtocolError with the same text; every other
    exception goes through. *)
Definition copy_ovf_env : Act OvfEnv :=
  try_except copy_ovf_env_try (fun e =>
    match e with
    | IOError msg => act_raise (Ovf (ProtocolError msg))
    | OSUtilError msg => act_raise (Ovf (ProtocolError msg))
    | _ => act_raise e
    end).

End Functions.

(** * Properties *)

(** ** The document model implements the helpers *)

Lemma first_text_nonempty (cs : list Dom.DomNode) :
  Dom.first_text cs <> Some EmptyString.
Proof.
  induction cs as [|c cs IH]; simpl.
  - discriminate.
  - destruct c; try exact IH. discriminate.
Qed.

Lemma dom_findtext_nonempty (root : Dom.DomNode) (tag namespace : string) :
  Dom.findtext root tag namespace <> Some EmptyString.
Proof.
  unfold Dom.findtext.
  destruct (Dom.find root tag namespace) as [node|].
  - apply first_text_nonempty.
  - discriminate.
Qed.

(** The document model as an implementation of the imported helpers. *)
#[export] Instance dom : TextUtil := {|
  Node := Dom.DomNode;
  parse_doc := Dom.parse_doc;
  findall := Dom.findall;
  find := Dom.find;
  findtext := Dom.findtext;
  findtext_nonempty := dom_findtext_nonempty
|}.

Section Properties.
Context {TU : TextUtil}.

(** ** The two loops *)

Lemma for_each_pubkeys (f : Node -> PubKey) (xs : list Node) (h : Heap) :
  for_each xs (fun x => assign (append_pubkey (f x))) h =
  (inr tt,
   {| self := {| hostname := hostname (self h); username := username (self h);
                 user_password := user_password (self h);
                 customdata := customdata (self h);
                 disable_ssh_password_auth := disable_ssh_password_auth (self h);
                 ssh_pubkeys := ssh_pubkeys (self h) ++ map f xs;
                 ssh_keypairs := ssh_keypairs (self h) |};
      logged := logged h |}).
Proof.
  revert h.
  induction xs as [|x xs IH]; intros [o lg]; simpl.
  - unfold ret. rewrite app_nil_r. destruct o; reflexivity.
  - unfold bind, assign at 1. rewrite IH. simpl.
    rewrite <- app_assoc. reflexivity.
Qed.

Lemma for_each_keypairs (f : Node -> KeyPair) (xs : list Node) (h : Heap) :
  for_each xs (fun x => assign (append_keypair (f x))) h =
  (inr tt,
   {| self := {| hostname := hostname (self h); username := username (self h);
                 user_password := user_password (self h);
                 customdata := customdata (self h);
                 disable_ssh_password_auth := disable_ssh_password_auth (self h);
                 ssh_pubkeys := ssh_pubkeys (self h);
                 ssh_keypairs := ssh_keypairs (self h) ++ map f xs |};
      logged := logged h |}).
Proof.
  revert h.
  induction xs as [|x xs IH]; intros [o lg]; simpl.
  - unfold ret. rewrite app_nil_r. destruct o; reflexivity.
  - unfold bind, assign at 1. rewrite IH. simpl.
    rewrite <- app_assoc. reflexivity.
Qed.

(** ** One run of [parse] *)

Lemma assign_run (f : OvfEnv -> OvfEnv) (h : Heap) :
  assign f h = (inr tt, {| self := f (self h); logged := logged h |}).
Proof. reflexivity. Qed.

Lemma getattr_run {A} (f : OvfEnv -> A) (h : Heap) :
  getattr f h = (inr (f (self h)), h).
Proof. reflexivity. Qed.

Lemma logger_run (r : LogRecord) (h : Heap) :
  logger r h = (inr tt, {| self := self h; logged := logged h ++ [r] |}).
Proof. reflexivity. Qed.

(** Unfold the sequencing, never the lookups. *)
Ltac run :=
  unfold parse, bind, _validate_ovf, raise, ret;
  cbv beta iota zeta.

Ltac found H := rewrite H; cbv beta iota zeta.

Ltac stores :=
  repeat (first [rewrite assign_run | rewrite logger_run | rewrite getattr_run];
          cbn [self logged hostname username set_hostname set_username];
          cbv beta iota zeta).

(** Where the path finds everything, [parse] returns and leaves the
    object that [parsed] describes. *)
Lemma parse_returns (xml_text : string) (xml_doc conf_set : Node)
      (version host user : string) (h : Heap) :
  parse_doc xml_text = Some xml_doc ->
  Reaches xml_doc version conf_set ->
  findtext conf_set "HostName" WA_NAME_SPACE = Some host ->
  findtext conf_set "UserName" WA_NAME_SPACE = Some user ->
  parse xml_text h =
  (inr tt, {| self := parsed (self h) conf_set host user;
              logged := logged h ++ version_log version |}).
Proof.
  intros Hdoc [environment section Henv Hsec Hver Hconf] Hhost Huser.
  run. found Hdoc. found Henv. found Hsec. found Hver.
  unfold parsed, version_log, says_true.
  destruct (str_gt version OVF_VERSION); stores;
    found Hconf; found Hhost; found Huser; stores;
    destruct (findtext conf_set "DisableSshPasswordAuthentication" WA_NAME_SPACE)
      as [a|]; try destruct (String.eqb (lower a) "true"); stores;
    rewrite for_each_pubkeys; cbv beta iota zeta;
    rewrite for_each_keypairs; cbn [self logged hostname username user_password
      customdata disable_ssh_password_auth ssh_pubkeys ssh_keypairs
      set_hostname set_username set_user_password set_customdata
      set_disable_ssh_password_auth];
    rewrite ?app_nil_r; reflexivity.
Qed.

(** Text that is not XML: [parse] raises what the XML reader raised and
    touches nothing. *)
Lemma parse_malformed (xml_text : string) (h : Heap) :
  parse_doc xml_text = None ->
  parse xml_text h = (inl ExpatError, h).
Proof.
  intros Hdoc. run. found Hdoc. reflexivity.
Qed.

(** A required element is missing: [parse] raises ProtocolError with
    the message for the first one missing.  What the logger was sent up
    to there depends on the document alone. *)
Lemma parse_missing (xml_text : string) (xml_doc : Node) (name : string) :
  parse_doc xml_text = Some xml_doc ->
  Missing xml_doc name ->
  exists out, forall h, exists o,
    parse xml_text h =
    (inl (ProtocolError ("Failed to parse OVF XML: " ++ name ++ " not found")),
     {| self := o; logged := logged h ++ out |}).
Proof.
  intros Hdoc Hmiss.
  destruct Hmiss as
    [Henv | environment Henv Hsec | environment section Henv Hsec Hver
     | environment section version Henv Hsec Hver Hconf
     | environment section version conf_set Henv Hsec Hver Hconf Hhost
     | environment section version conf_set host Henv Hsec Hver Hconf Hhost Huser].
  - exists []. intros h. exists (self h).
    run. found Hdoc. found Henv. rewrite app_nil_r. destruct h; reflexivity.
  - exists []. intros h. exists (self h).
    run. found Hdoc. found Henv. found Hsec.
    rewrite app_nil_r. destruct h; reflexivity.
  - exists []. intros h. exists (self h).
    run. found Hdoc. found Henv. found Hsec. found Hver.
    rewrite app_nil_r. destruct h; reflexivity.
  - exists (version_log version). intros h. exists (self h).
    run. found Hdoc. found Henv. found Hsec. found Hver.
    unfold version_log.
    destruct (str_gt version OVF_VERSION); stores; found Hconf.
    + reflexivity.
    + rewrite app_nil_r. destruct h; reflexivity.
  - exists (version_log version). intros h.
    exists (set_hostname None (self h)).
    run. found Hdoc. found Henv. found Hsec. found Hver.
    unfold version_log.
    destruct (str_gt version OVF_VERSION); stores; found Hconf; stores;
      found Hhost; rewrite ?app_nil_r; reflexivity.
  - exists (version_log version). intros h.
    exists (set_username None (set_hostname (Some host) (self h))).
    run. found Hdoc. found Henv. found Hsec. found Hver.
    unfold version_log.
    destruct (str_gt version OVF_VERSION); stores; found Hconf; stores;
      found Hhost; stores; found Huser; rewrite ?app_nil_r; reflexivity.
Qed.

(** Every text is of exactly one of three sorts to the fixed path. *)
Lemma path_cases (xml_text : string) :
  parse_doc xml_text = None \/
  (exists xml_doc name,
     parse_doc xml_text = Some xml_doc /\ Missing xml_doc name) \/
  (exists xml_doc version conf_set host user,
     parse_doc xml_text = Some xml_doc /\
     Reaches xml_doc version conf_set /\
     findtext conf_set "HostName" WA_NAME_SPACE = Some host /\
     findtext conf_set "UserName" WA_NAME_SPACE = Some user).
Proof.
  destruct (parse_doc xml_text) as [xml_doc|] eqn:Hdoc; [right | now left].
  destruct (find xml_doc "Environment" OVF_NAME_SPACE)
    as [environment|] eqn:Henv;
    [| left; exists xml_doc, "Environment"; split;
       [reflexivity | now apply missing_environment]].
  destruct (find environment "ProvisioningSection" WA_NAME_SPACE)
    as [section|] eqn:Hsec;
    [| left; exists xml_doc, "ProvisioningSection"; split;
       [reflexivity | now apply missing_section with environment]].
  destruct (findtext environment "Version" WA_NAME_SPACE)
    as [version|] eqn:Hver;
    [| left; exists xml_doc, "Version"; split;
       [reflexivity | now apply missing_version with environment section]].
  destruct (find section "LinuxProvisioningConfigurationSet" WA_NAME_SPACE)
    as [conf_set|] eqn:Hconf;
    [| left; exists xml_doc, "LinuxProvisioningConfigurationSet"; split;
       [reflexivity
       | now apply missing_conf_set with environment section version]].
  destruct (findtext conf_set "HostName" WA_NAME_SPACE) as [host|] eqn:Hhost;
    [| left; exists xml_doc, "HostName"; split;
       [reflexivity
       | now apply missing_hostname with environment section version conf_set]].
  destruct (findtext conf_set "UserName" WA_NAME_SPACE) as [user|] eqn:Huser;
    [| left; exists xml_doc, "UserName"; split;
       [reflexivity
       | now apply missing_username
           with environment section version conf_set host]].
  right. exists xml_doc, version, conf_set, host, user.
  repeat split; try assumption.
  now apply reaches with environment section.
Qed.

(** The lookups are functions: the path reaches one place only. *)
Lemma Reaches_unique (xml_doc : Node) (v1 v2 : string) (c1 c2 : Node) :
  Reaches xml_doc v1 c1 -> Reaches xml_doc v2 c2 -> v1 = v2 /\ c1 = c2.
Proof.
  intros [e1 s1 He1 Hs1 Hv1 Hc1] [e2 s2 He2 Hs2 Hv2 Hc2].
  rewrite He1 in He2. injection He2 as <-.
  rewrite Hs1 in Hs2. injection Hs2 as <-.
  rewrite Hv1 in Hv2. injection Hv2 as <-.
  rewrite Hc1 in Hc2. injection Hc2 as <-.
  split; reflexivity.
Qed.

Lemma Missing_not_Reaches (xml_doc : Node) (name version : string)
      (conf_set : Node) (host user : string) :
  Missing xml_doc name ->
  Reaches xml_doc version conf_set ->
  findtext conf_set "HostName" WA_NAME_SPACE = Some host ->
  findtext conf_set "UserName" WA_NAME_SPACE = Some user ->
  False.
Proof.
  intros Hmiss [environment section Henv Hsec Hver Hconf] Hhost Huser.
  destruct Hmiss as
    [He | e He Hs | e s He Hs Hv | e s v He Hs Hv Hc
     | e s v c He Hs Hv Hc Hh | e s v c h0 He Hs Hv Hc Hh Hu];
    rewrite Henv in He; try discriminate; injection He as <-;
    rewrite Hsec in Hs; try discriminate; injection Hs as <-;
    rewrite Hver in Hv; try discriminate; injection Hv as <-;
    rewrite Hconf in Hc; try discriminate; injection Hc as <-;
    rewrite Hhost in Hh; try discriminate; injection Hh as <-;
    rewrite Huser in Hu; discriminate.
Qed.

(** ** The constructor *)

Lemma init_none (log : list LogRecord) :
  __init__ None log = (inl (ValueError "ovf-env is None"), log).
Proof. reflexivity. Qed.

(** On a text the constructor logs, starts from [fresh] and runs
    [parse]. *)
Lemma init_some (text : string) (log : list LogRecord) :
  __init__ (Some text) log =
  match parse text {| self := fresh; logged := log ++ [Verb MSG_LOAD] |} with
  | (inl e, h) => (inl e, logged h)
  | (inr _, h) => (inr (self h), logged h)
  end.
Proof. reflexivity. Qed.

Lemma init_returns (xml_text : string) (xml_doc conf_set : Node)
      (version host user : string) (log : list LogRecord) :
  parse_doc xml_text = Some xml_doc ->
  Reaches xml_doc version conf_set ->
  findtext conf_set "HostName" WA_NAME_SPACE = Some host ->
  findtext conf_set "UserName" WA_NAME_SPACE = Some user ->
  __init__ (Some xml_text) log =
  (inr (parsed fresh conf_set host user),
   log ++ Verb MSG_LOAD :: version_log version).
Proof.
  intros Hdoc Hreach Hhost Huser.
  rewrite init_some.
  rewrite (parse_returns _ _ _ _ _ _ _ Hdoc Hreach Hhost Huser).
  cbn [self logged]. rewrite <- app_assoc. reflexivity.
Qed.

Lemma init_missing (xml_text : string) (xml_doc : Node) (name : string) :
  parse_doc xml_text = Some xml_doc ->
  Missing xml_doc name ->
  exists out, forall log,
    __init__ (Some xml_text) log =
    (inl (ProtocolError ("Failed to parse OVF XML: " ++ name ++ " not found")),
     log ++ Verb MSG_LOAD :: out).
Proof.
  intros Hdoc Hmiss.
  destruct (parse_missing _ _ _ Hdoc Hmiss) as [out Hout].
  exists out. intros log. rewrite init_some.
  destruct (Hout {| self := fresh; logged := log ++ [Verb MSG_LOAD] |})
    as [o ->].
  cbn [self logged]. rewrite <- app_assoc. reflexivity.
Qed.

Lemma init_malformed (xml_text : string) (log : list LogRecord) :
  parse_doc xml_text = None ->
  __init__ (Some xml_text) log = (inl ExpatError, log ++ [Verb MSG_LOAD]).
Proof.
  intros Hdoc. rewrite init_some, (parse_malformed _ _ Hdoc). reflexivity.
Qed.

(** A constructor that returned has walked the whole path. *)
Lemma init_inr (xml_text : option string) (log log' : list LogRecord)
      (d : OvfEnv) :
  __init__ xml_text log = (inr d, log') ->
  exists text xml_doc version conf_set host user,
    xml_text = Some text /\
    parse_doc text = Some xml_doc /\
    Reaches xml_doc version conf_set /\
    findtext conf_set "HostName" WA_NAME_SPACE = Some host /\
    findtext conf_set "UserName" WA_NAME_SPACE = Some user /\
    d = parsed fresh conf_set host user /\
    log' = log ++ Verb MSG_LOAD :: version_log version.
Proof.
  intros Hrun.
  destruct xml_text as [text|]; [| rewrite init_none in Hrun; discriminate].
  destruct (path_cases text)
    as [Hdoc | [(xml_doc & name & Hdoc & Hmiss)
               | (xml_doc & version & conf_set & host & user
                  & Hdoc & Hreach & Hhost & Huser)]].
  - rewrite (init_malformed _ _ Hdoc) in Hrun. discriminate.
  - destruct (init_missing _ _ _ Hdoc Hmiss) as [out Hout].
    rewrite Hout in Hrun. discriminate.
  - rewrite (init_returns _ _ _ _ _ _ log Hdoc Hreach Hhost Huser) in Hrun.
    injection Hrun as <- <-.
    exists text, xml_doc, version, conf_set, host, user.
    repeat split; assumption.
Qed.

End Properties.

(** * The claims of the specification *)

Section Claims.
Context {TU : TextUtil}.

(** C1. A descriptor that the constructor returns has a host name and a
    user name that are set and are not the empty string; and a document
    whose configuration set gives no text for HostName or for UserName
    (the element is absent or empty) makes the constructor raise, so
    that no descriptor is produced. *)
Theorem C1_hostname_and_username_not_empty
        (xml_text : option string) (log : list LogRecord) :
  (forall d log',
     __init__ xml_text log = (inr d, log') ->
     exists host user,
       hostname d = Some host /\ username d = Some user /\
       host <> EmptyString /\ user <> EmptyString) /\
  (forall text xml_doc version conf_set,
     xml_text = Some text ->
     parse_doc text = Some xml_doc ->
     Reaches xml_doc version conf_set ->
     findtext conf_set "HostName" WA_NAME_SPACE = None \/
     findtext conf_set "UserName" WA_NAME_SPACE = None ->
     exists e log', __init__ xml_text log = (inl e, log')).
Proof.
  split.
  - intros d log' Hrun.
    destruct (init_inr _ _ _ _ Hrun)
      as (text & xml_doc & version & conf_set & host & user
          & _ & _ & _ & Hhost & Huser & -> & _).
    exists host, user. cbn [parsed hostname username].
    repeat split.
    + intros ->. exact (findtext_nonempty _ _ _ Hhost).
    + intros ->. exact (findtext_nonempty _ _ _ Huser).
  - intros text xml_doc version conf_set -> Hdoc
           [environment section Henv Hsec Hver Hconf] Hnone.
    assert (Hmiss : exists name, Missing xml_doc name).
    { destruct (findtext conf_set "HostName" WA_NAME_SPACE) as [host|] eqn:Hhost.
      - destruct Hnone as [Hnone | Hnone]; [discriminate |].
        exists "UserName".
        now apply missing_username
          with environment section version conf_set host.
      - exists "HostName".
        now apply missing_hostname with environment section version conf_set. }
    destruct Hmiss as [name Hmiss].
    destruct (init_missing _ _ _ Hdoc Hmiss) as [out Hout].
    eexists. eexists. apply Hout.
Qed.

(** C2. A document that is well-formed XML and in which the fixed path
    misses a required element (Environment, ProvisioningSection,
    Version, LinuxProvisioningConfigurationSet, HostName or UserName)
    makes the constructor raise ProtocolError, the one kind for every
    such failure, with a message that names the element that was
    missed; the caller gets the exception and no descriptor. *)
Theorem C2_missing_element_raises_protocol_error
        (xml_text : string) (xml_doc : Node) (name : string)
        (log : list LogRecord) :
  parse_doc xml_text = Some xml_doc ->
  Missing xml_doc name ->
  exists e log',
    __init__ (Some xml_text) log = (inl e, log') /\
    e = ProtocolError ("Failed to parse OVF XML: " ++ name ++ " not found") /\
    kind_of e = StructuralValidationError /\
    In name ["Environment"; "ProvisioningSection"; "Version";
             "LinuxProvisioningConfigurationSet"; "HostName"; "UserName"].
Proof.
  intros Hdoc Hmiss.
  destruct (init_missing _ _ _ Hdoc Hmiss) as [out Hout].
  eexists. eexists. split; [apply Hout |].
  split; [reflexivity |]. split; [reflexivity |].
  destruct Hmiss; simpl; auto 7.
Qed.

(** C3. Where the document has every required element with text, the
    constructor returns, and the descriptor's host name and user name
    are the texts of the HostName and UserName elements as the lookup
    gives them, with no character changed. *)
Theorem C3_hostname_and_username_verbatim
        (xml_text : string) (xml_doc conf_set : Node)
        (version host user : string) (log : list LogRecord) :
  parse_doc xml_text = Some xml_doc ->
  Reaches xml_doc version conf_set ->
  findtext conf_set "HostName" WA_NAME_SPACE = Some host ->
  findtext conf_set "UserName" WA_NAME_SPACE = Some user ->
  exists d log',
    __init__ (Some xml_text) log = (inr d, log') /\
    hostname d = Some host /\
    username d = Some user.
Proof.
  intros Hdoc Hreach Hhost Huser.
  eexists. eexists. split.
  - apply (init_returns _ _ _ _ _ _ log Hdoc Hreach Hhost Huser).
  - split; reflexivity.
Qed.

(** C4. On a descriptor that the constructor returned,
    disable_ssh_password_auth is true exactly when the configuration
    set gives a text for DisableSshPasswordAuthentication and that
    text, put in lower case, is "true"; with no text, or any other
    text, it is false. *)
Theorem C4_disable_ssh_password_auth
        (xml_text : string) (xml_doc conf_set : Node) (version : string)
        (log log' : list LogRecord) (d : OvfEnv) :
  parse_doc xml_text = Some xml_doc ->
  Reaches xml_doc version conf_set ->
  __init__ (Some xml_text) log = (inr d, log') ->
  (disable_ssh_password_auth d = true <->
   exists a,
     findtext conf_set "DisableSshPasswordAuthentication" WA_NAME_SPACE = Some a /\
     lower a = "true") /\
  (findtext conf_set "DisableSshPasswordAuthentication" WA_NAME_SPACE = None ->
   disable_ssh_password_auth d = false) /\
  (forall a,
     findtext conf_set "DisableSshPasswordAuthentication" WA_NAME_SPACE = Some a ->
     lower a <> "true" ->
     disable_ssh_password_auth d = false).
Proof.
  intros Hdoc Hreach Hrun.
  destruct (init_inr _ _ _ _ Hrun)
    as (text & xml_doc' & version' & conf_set' & host & user
        & Htext & Hdoc' & Hreach' & _ & _ & -> & _).
  injection Htext as <-.
  rewrite Hdoc in Hdoc'. injection Hdoc' as <-.
  destruct (Reaches_unique _ _ _ _ _ Hreach Hreach') as [<- <-].
  cbn [parsed disable_ssh_password_auth]. unfold says_true.
  destruct (findtext conf_set "DisableSshPasswordAuthentication" WA_NAME_SPACE)
    as [a|].
  - split; [split | split].
    + intros Heq. exists a. split; [reflexivity |].
      now apply String.eqb_eq.
    + intros (a' & Ha' & Hlow). injection Ha' as <-.
      now apply String.eqb_eq.
    + discriminate.
    + intros a' Ha' Hlow. injection Ha' as <-.
      now apply String.eqb_neq.
  - split; [split | split].
    + discriminate.
    + intros (a' & Ha' & _). discriminate.
    + reflexivity.
    + intros a' Ha'. discriminate.
Qed.

(** C5, as amended. Called with no document text at all (None), the
    constructor raises ValueError, the invalid-input kind, before it
    logs or reads anything; a document that is XML and in which a
    required element is missing raises an exception of another kind,
    the structural-validation kind. *)
Theorem C5_absent_text_is_invalid_input (log : list LogRecord) :
  (exists e,
     __init__ None log = (inl e, log) /\ kind_of e = InvalidInputError) /\
  (forall xml_text xml_doc name e log',
     parse_doc xml_text = Some xml_doc ->
     Missing xml_doc name ->
     __init__ (Some xml_text) log = (inl e, log') ->
     kind_of e = StructuralValidationError /\
     kind_of e <> InvalidInputError).
Proof.
  split.
  - exists (ValueError "ovf-env is None"). split; reflexivity.
  - intros xml_text xml_doc name e log' Hdoc Hmiss Hrun.
    destruct (init_missing _ _ _ Hdoc Hmiss) as [out Hout].
    rewrite Hout in Hrun. injection Hrun as <- _.
    split; [reflexivity | discriminate].
Qed.

(** C6. On a descriptor that the constructor returned, ssh_pubkeys has
    one entry for each PublicKey element found under the configuration
    set and ssh_keypairs one for each KeyPair element, in the order in
    which the lookup lists the elements; an entry holds what the lookups
    of Path, Fingerprint and Value give under its element, unset where
    there is none and never the empty string in its place, and an
    element with no sub-element at all still has its entry. *)
Theorem C6_keys_in_document_order
        (xml_text : string) (xml_doc conf_set : Node) (version : string)
        (log log' : list LogRecord) (d : OvfEnv) :
  parse_doc xml_text = Some xml_doc ->
  Reaches xml_doc version conf_set ->
  __init__ (Some xml_text) log = (inr d, log') ->
  let public_keys := findall conf_set "PublicKey" WA_NAME_SPACE in
  let keypairs := findall conf_set "KeyPair" WA_NAME_SPACE in
  ssh_pubkeys d = map read_pubkey public_keys /\
  ssh_keypairs d = map read_keypair keypairs /\
  length (ssh_pubkeys d) = length public_keys /\
  length (ssh_keypairs d) = length keypairs /\
  (forall i public_key,
     nth_error public_keys i = Some public_key ->
     nth_error (ssh_pubkeys d) i =
     Some (findtext public_key "Path" WA_NAME_SPACE,
           findtext public_key "Fingerprint" WA_NAME_SPACE,
           findtext public_key "Value" WA_NAME_SPACE)) /\
  (forall i keypair,
     nth_error keypairs i = Some keypair ->
     nth_error (ssh_keypairs d) i =
     Some (findtext keypair "Path" WA_NAME_SPACE,
           findtext keypair "Fingerprint" WA_NAME_SPACE)) /\
  (forall path fingerprint value,
     In (path, fingerprint, value) (ssh_pubkeys d) ->
     path <> Some EmptyString /\ fingerprint <> Some EmptyString /\
     value <> Some EmptyString).
Proof.
  intros Hdoc Hreach Hrun public_keys keypairs.
  destruct (init_inr _ _ _ _ Hrun)
    as (text & xml_doc' & version' & conf_set' & host & user
        & Htext & Hdoc' & Hreach' & _ & _ & -> & _).
  injection Htext as <-.
  rewrite Hdoc in Hdoc'. injection Hdoc' as <-.
  destruct (Reaches_unique _ _ _ _ _ Hreach Hreach') as [<- <-].
  cbn [parsed ssh_pubkeys ssh_keypairs fresh app].
  fold public_keys keypairs.
  repeat apply conj.
  - reflexivity.
  - reflexivity.
  - apply length_map.
  - apply length_map.
  - intros i public_key Hi.
    apply (map_nth_error read_pubkey _ _ Hi).
  - intros i keypair Hi.
    apply (map_nth_error read_keypair _ _ Hi).
  - intros path fingerprint value Hin.
    apply in_map_iff in Hin. destruct Hin as (public_key & Heq & _).
    unfold read_pubkey in Heq. injection Heq as <- <- <-.
    repeat split; apply findtext_nonempty.
Qed.

(** C7. Where the document has every required element and the text of
    its Version is greater than "1.0" in the lexicographic order of
    strings, the constructor returns the whole descriptor, and what it
    sends to the logger is its opening message and the one warning;
    where the Version is not greater, the descriptor is the same and
    the warning is not sent.  The order is that of the characters:
    nothing reads the text as a version number. *)
Theorem C7_newer_version_warns_and_parses
        (xml_text : string) (xml_doc conf_set : Node)
        (version host user : string) (log : list LogRecord) :
  parse_doc xml_text = Some xml_doc ->
  Reaches xml_doc version conf_set ->
  findtext conf_set "HostName" WA_NAME_SPACE = Some host ->
  findtext conf_set "UserName" WA_NAME_SPACE = Some user ->
  (String.compare version OVF_VERSION = Gt ->
   __init__ (Some xml_text) log =
   (inr (parsed fresh conf_set host user),
    log ++ [Verb MSG_LOAD; Warn MSG_NEWER])) /\
  (String.compare version OVF_VERSION <> Gt ->
   __init__ (Some xml_text) log =
   (inr (parsed fresh conf_set host user), log ++ [Verb MSG_LOAD])).
Proof.
  intros Hdoc Hreach Hhost Huser.
  rewrite (init_returns _ _ _ _ _ _ log Hdoc Hreach Hhost Huser).
  unfold version_log, str_gt, String.ltb.
  rewrite (String.compare_antisym OVF_VERSION version).
  split; intros Hcmp.
  - rewrite Hcmp. reflexivity.
  - destruct (String.compare version OVF_VERSION);
      [reflexivity | reflexivity | contradiction].
Qed.

(** C8. What the constructor gives for a document text, the exception
    or the descriptor, and what it sends to the logger depend on the
    text alone: two constructions from one text both raise the same
    exception or both return the same descriptor, equal in every
    field, whatever the logger held before each. *)
Theorem C8_constructor_is_deterministic (xml_text : option string) :
  exists result out,
    (forall log, __init__ xml_text log = (result, log ++ out)) /\
    (forall log1 log2,
       fst (__init__ xml_text log1) = fst (__init__ xml_text log2)).
Proof.
  assert (H : exists result out,
             forall log, __init__ xml_text log = (result, log ++ out)).
  { destruct xml_text as [text|].
    - destruct (path_cases text)
        as [Hdoc | [(xml_doc & name & Hdoc & Hmiss)
                   | (xml_doc & version & conf_set & host & user
                      & Hdoc & Hreach & Hhost & Huser)]].
      + exists (inl ExpatError), [Verb MSG_LOAD]. intros log.
        apply init_malformed, Hdoc.
      + destruct (init_missing _ _ _ Hdoc Hmiss) as [out Hout].
        eexists. exists (Verb MSG_LOAD :: out). exact Hout.
      + eexists. eexists. intros log.
        apply (init_returns _ _ _ _ _ _ log Hdoc Hreach Hhost Huser).
    - exists (inl (ValueError "ovf-env is None")), []. intros log.
      rewrite app_nil_r. reflexivity. }
  destruct H as (result & out & H).
  exists result, out. split; [exact H |].
  intros log1 log2. rewrite !H. reflexivity.
Qed.

(** C9. The constructor raises ValueError for None and for nothing
    else: on any text, the empty one included, it logs and goes on to
    [parse], and an exception that leaves it then is the XML reader's
    or a ProtocolError.  Where the reader refuses the empty text, the
    constructor fails with the reader's error. *)
Theorem C9_only_none_is_invalid_input (log : list LogRecord) :
  __init__ None log = (inl (ValueError "ovf-env is None"), log) /\
  (forall text e log',
     __init__ (Some text) log = (inl e, log') ->
     kind_of e = MalformedXmlError \/ kind_of e = StructuralValidationError) /\
  (forall e log',
     __init__ (Some EmptyString) log = (inl e, log') ->
     kind_of e <> InvalidInputError) /\
  (parse_doc EmptyString = None ->
   __init__ (Some EmptyString) log = (inl ExpatError, log ++ [Verb MSG_LOAD])).
Proof.
  assert (Hkind : forall text e log',
             __init__ (Some text) log = (inl e, log') ->
             kind_of e = MalformedXmlError \/
             kind_of e = StructuralValidationError).
  { intros text e log' Hrun.
    destruct (path_cases text)
      as [Hdoc | [(xml_doc & name & Hdoc & Hmiss)
                 | (xml_doc & version & conf_set & host & user
                    & Hdoc & Hreach & Hhost & Huser)]].
    - rewrite (init_malformed _ _ Hdoc) in Hrun. injection Hrun as <- _.
      left. reflexivity.
    - destruct (init_missing _ _ _ Hdoc Hmiss) as [out Hout].
      rewrite Hout in Hrun. injection Hrun as <- _. right. reflexivity.
    - rewrite (init_returns _ _ _ _ _ _ log Hdoc Hreach Hhost Huser) in Hrun.
      discriminate. }
  repeat apply conj.
  - reflexivity.
  - exact Hkind.
  - intros e log' Hrun Hinv.
    destruct (Hkind _ _ _ Hrun) as [H | H]; rewrite H in Hinv; discriminate.
  - apply init_malformed.
Qed.

(** [parse] run [k] more times on an object adds [k] times the keys of
    the document to what the object held. *)
Lemma parse_times_appends
      (xml_text : string) (xml_doc conf_set : Node)
      (version host user : string) (k : nat) :
  parse_doc xml_text = Some xml_doc ->
  Reaches xml_doc version conf_set ->
  findtext conf_set "HostName" WA_NAME_SPACE = Some host ->
  findtext conf_set "UserName" WA_NAME_SPACE = Some user ->
  forall h, exists h',
    parse_times k xml_text h = (inr tt, h') /\
    ssh_pubkeys (self h') =
      ssh_pubkeys (self h) ++
      concat (repeat (map read_pubkey
                        (findall conf_set "PublicKey" WA_NAME_SPACE)) k) /\
    ssh_keypairs (self h') =
      ssh_keypairs (self h) ++
      concat (repeat (map read_keypair
                        (findall conf_set "KeyPair" WA_NAME_SPACE)) k).
Proof.
  intros Hdoc Hreach Hhost Huser.
  induction k as [|k IH]; intros h.
  - exists h. cbn. rewrite !app_nil_r. repeat split.
  - cbn [parse_times]. unfold bind.
    rewrite (parse_returns _ _ _ _ _ _ h Hdoc Hreach Hhost Huser).
    destruct (IH {| self := parsed (self h) conf_set host user;
                    logged := logged h ++ version_log version |})
      as (h' & Hrun & Hpub & Hpair).
    exists h'. split; [exact Hrun |].
    rewrite Hpub, Hpair.
    cbn [self parsed ssh_pubkeys ssh_keypairs repeat concat].
    rewrite <- !app_assoc. split; reflexivity.
Qed.

Lemma length_concat_repeat {A} (l : list A) (k : nat) :
  length (concat (repeat l k)) = k * length l.
Proof.
  induction k as [|k IH]; cbn; [reflexivity |].
  rewrite length_app, IH. reflexivity.
Qed.

(** C10. A further call of [parse] on an object does not start the key
    lists afresh: it appends the document's PublicKey and KeyPair
    entries to what ssh_pubkeys and ssh_keypairs hold.  So with a
    document of N PublicKey and M KeyPair elements, k calls of [parse]
    on the object that the constructor prepares leave k * N and k * M
    entries; and on the constructed object, whose constructor made the
    first call, k further calls leave (1 + k) * N and (1 + k) * M. *)
Theorem C10_parse_again_appends
        (xml_text : string) (xml_doc conf_set : Node)
        (version host user : string) :
  parse_doc xml_text = Some xml_doc ->
  Reaches xml_doc version conf_set ->
  findtext conf_set "HostName" WA_NAME_SPACE = Some host ->
  findtext conf_set "UserName" WA_NAME_SPACE = Some user ->
  let entries := map read_pubkey (findall conf_set "PublicKey" WA_NAME_SPACE) in
  let pairs := map read_keypair (findall conf_set "KeyPair" WA_NAME_SPACE) in
  (forall h, exists h',
     parse xml_text h = (inr tt, h') /\
     ssh_pubkeys (self h') = ssh_pubkeys (self h) ++ entries /\
     ssh_keypairs (self h') = ssh_keypairs (self h) ++ pairs) /\
  (forall k log, exists h',
     parse_times k xml_text {| self := fresh; logged := log |} = (inr tt, h') /\
     length (ssh_pubkeys (self h')) =
       k * length (findall conf_set "PublicKey" WA_NAME_SPACE) /\
     length (ssh_keypairs (self h')) =
       k * length (findall conf_set "KeyPair" WA_NAME_SPACE)) /\
  (forall k log, exists d log1 h',
     __init__ (Some xml_text) log = (inr d, log1) /\
     parse_times k xml_text {| self := d; logged := log1 |} = (inr tt, h') /\
     ssh_pubkeys (self h') = concat (repeat entries (1 + k)) /\
     ssh_keypairs (self h') = concat (repeat pairs (1 + k)) /\
     length (ssh_pubkeys (self h')) =
       (1 + k) * length (findall conf_set "PublicKey" WA_NAME_SPACE) /\
     length (ssh_keypairs (self h')) =
       (1 + k) * length (findall conf_set "KeyPair" WA_NAME_SPACE)).
Proof.
  intros Hdoc Hreach Hhost Huser entries pairs.
  repeat apply conj.
  - intros h. eexists. split.
    + apply (parse_returns _ _ _ _ _ _ h Hdoc Hreach Hhost Huser).
    + split; reflexivity.
  - intros k log.
    destruct (parse_times_appends _ _ _ _ _ _ k Hdoc Hreach Hhost Huser
                {| self := fresh; logged := log |})
      as (h' & Hrun & Hpub & Hpair).
    exists h'. split; [exact Hrun |].
    rewrite Hpub, Hpair. cbn [self fresh ssh_pubkeys ssh_keypairs app].
    rewrite !length_concat_repeat, !length_map. split; reflexivity.
  - intros k log.
    destruct (parse_times_appends _ _ _ _ _ _ k Hdoc Hreach Hhost Huser
                {| self := parsed fresh conf_set host user;
                   logged := log ++ Verb MSG_LOAD :: version_log version |})
      as (h' & Hrun & Hpub & Hpair).
    cbn [self parsed fresh ssh_pubkeys ssh_keypairs app] in Hpub, Hpair.
    fold entries in Hpub. fold pairs in Hpair.
    exists (parsed fresh conf_set host user),
           (log ++ Verb MSG_LOAD :: version_log version), h'.
    split; [apply (init_returns _ _ _ _ _ _ log Hdoc Hreach Hhost Huser) |].
    split; [exact Hrun |].
    assert (Hp : ssh_pubkeys (self h') = concat (repeat entries (1 + k)))
      by (rewrite Hpub; reflexivity).
    assert (Hk : ssh_keypairs (self h') = concat (repeat pairs (1 + k)))
      by (rewrite Hpair; reflexivity).
    split; [exact Hp |]. split; [exact Hk |].
    rewrite Hp, Hk, !length_concat_repeat.
    unfold entries, pairs. rewrite !length_map. split; reflexivity.
Qed.

End Claims.

(** * The claims on the sample documents *)

Ltac computed := vm_compute; reflexivity.

Ltac reached := eapply reaches; computed.

(** The end-to-end example of the specification. *)
Example end_to_end :
  __init__ (TU := dom) (Some Sample.example) [] =
  (inr Sample.example_descriptor, [Verb MSG_LOAD]).
Proof. computed. Qed.

(** The order that decides the warning is that of the characters: a
    text that denotes the version 1.0 with one more zero already counts
    as newer, and "1.10" sorts before "1.2". *)
Example version_order_is_lexicographic :
  str_gt "1.00" OVF_VERSION = true /\
  str_gt "1.0" OVF_VERSION = false /\
  str_gt "0.9" OVF_VERSION = false /\
  str_gt "1.10" "1.2" = false.
Proof. repeat split. Qed.

Example lower_examples :
  lower "TRUE" = "true" /\ lower "True" = "true" /\
  lower " true" = " true" /\ lower "false" = "false".
Proof. repeat split. Qed.

Lemma C1_witness :
  (exists host user,
     hostname Sample.example_descriptor = Some host /\
     username Sample.example_descriptor = Some user /\
     host <> EmptyString /\ user <> EmptyString) /\
  (exists e log',
     __init__ (TU := dom) (Some Sample.no_hostname) [] = (inl e, log')).
Proof.
  split.
  - apply (proj1 (C1_hostname_and_username_not_empty
                    (TU := dom) (Some Sample.example) [])
                 Sample.example_descriptor [Verb MSG_LOAD]).
    computed.
  - eapply (proj2 (C1_hostname_and_username_not_empty
                     (TU := dom) (Some Sample.no_hostname) []));
      [reflexivity | computed | reached | left; computed].
Defined.

(** The constructor raises the error that names [name]. *)
Definition raises_not_found (xml_text name : string) : Prop :=
  exists e log',
    __init__ (TU := dom) (Some xml_text) [] = (inl e, log') /\
    e = ProtocolError ("Failed to parse OVF XML: " ++ name ++ " not found") /\
    kind_of e = StructuralValidationError /\
    In name ["Environment"; "ProvisioningSection"; "Version";
             "LinuxProvisioningConfigurationSet"; "HostName"; "UserName"].

Lemma C2_witness :
  raises_not_found Sample.no_environment "Environment" /\
  raises_not_found Sample.no_section "ProvisioningSection" /\
  raises_not_found Sample.no_version "Version" /\
  raises_not_found Sample.no_conf_set "LinuxProvisioningConfigurationSet" /\
  raises_not_found Sample.no_hostname "HostName" /\
  raises_not_found Sample.no_username "UserName".
Proof.
  repeat apply conj;
    eapply (C2_missing_element_raises_protocol_error (TU := dom));
    try computed.
  - eapply missing_environment; computed.
  - eapply missing_section; computed.
  - eapply missing_version; computed.
  - eapply missing_conf_set; computed.
  - eapply missing_hostname; computed.
  - eapply missing_username; computed.
Defined.

Lemma C3_witness :
  exists d log',
    __init__ (TU := dom) (Some Sample.example) [] = (inr d, log') /\
    hostname d = Some "myhost" /\
    username d = Some "azureuser".
Proof.
  eapply (C3_hostname_and_username_verbatim (TU := dom) Sample.example);
    [computed | reached | computed | computed].
Defined.

Lemma C4_witness :
  disable_ssh_password_auth Sample.newer_descriptor = true /\
  disable_ssh_password_auth Sample.with_keys_descriptor = false.
Proof.
  split.
  - epose proof (C4_disable_ssh_password_auth (TU := dom) Sample.newer
                   _ _ _ [] _ Sample.newer_descriptor) as H.
    edestruct H as ([_ Htrue] & _ & _); [computed | reached | computed |].
    apply Htrue. exists "TRUE". split; computed.
  - epose proof (C4_disable_ssh_password_auth (TU := dom) Sample.with_keys
                   _ _ _ [] _ Sample.with_keys_descriptor) as H.
    edestruct H as (_ & Hnone & _); [computed | reached | computed |].
    apply Hnone. computed.
Defined.

Lemma C5_witness :
  (exists e,
     __init__ (TU := dom) None [] = (inl e, []) /\
     kind_of e = InvalidInputError) /\
  kind_of (ProtocolError "Failed to parse OVF XML: UserName not found")
    = StructuralValidationError.
Proof.
  split.
  - exact (proj1 (C5_absent_text_is_invalid_input (TU := dom) [])).
  - eapply (proj2 (C5_absent_text_is_invalid_input (TU := dom) [])
                  Sample.no_username);
      [computed | eapply missing_username; computed | computed].
Defined.

(** C5, as the specification states it, fails on the empty text: the
    constructor does not raise the invalid-input kind for it.  The
    empty text goes to the XML reader, and the error is the reader's. *)
Lemma C5_empty_text_is_not_invalid_input :
  exists e log',
    __init__ (TU := dom) (Some EmptyString) [] = (inl e, log') /\
    kind_of e = MalformedXmlError /\
    kind_of e <> InvalidInputError.
Proof.
  exists ExpatError, [Verb MSG_LOAD].
  split; [computed |]. split; [reflexivity | discriminate].
Qed.

Lemma C6_witness :
  ssh_pubkeys Sample.with_keys_descriptor =
    [(Some "/a", Some "AA", Some "k"); (None, None, None)] /\
  ssh_keypairs Sample.with_keys_descriptor = [(None, Some "BB")] /\
  length (ssh_pubkeys Sample.with_keys_descriptor) = 2 /\
  length (ssh_keypairs Sample.with_keys_descriptor) = 1.
Proof.
  epose proof (C6_keys_in_document_order (TU := dom) Sample.with_keys
                 _ _ _ [] _ Sample.with_keys_descriptor) as H.
  edestruct H as (Hpub & Hpair & Hn & Hm & _);
    [computed | reached | computed |].
  repeat apply conj.
  - exact Hpub.
  - exact Hpair.
  - exact Hn.
  - exact Hm.
Defined.

Lemma C7_witness :
  __init__ (TU := dom) (Some Sample.newer) [] =
    (inr Sample.newer_descriptor, [Verb MSG_LOAD; Warn MSG_NEWER]) /\
  __init__ (TU := dom) (Some Sample.example) [] =
    (inr Sample.example_descriptor, [Verb MSG_LOAD]).
Proof.
  split.
  - epose proof (C7_newer_version_warns_and_parses (TU := dom)
                   Sample.newer _ _ "1.1" "myhost" "azureuser" []) as H.
    edestruct H as [Hnewer _]; [computed | reached | computed | computed |].
    apply Hnewer. reflexivity.
  - epose proof (C7_newer_version_warns_and_parses (TU := dom)
                   Sample.example _ _ "1.0" "myhost" "azureuser" []) as H.
    edestruct H as [_ Hsame]; [computed | reached | computed | computed |].
    apply Hsame. discriminate.
Defined.

Lemma C9_witness :
  __init__ (TU := dom) None [] = (inl (ValueError "ovf-env is None"), []) /\
  __init__ (TU := dom) (Some EmptyString) [] = (inl ExpatError, [Verb MSG_LOAD]).
Proof.
  destruct (C9_only_none_is_invalid_input (TU := dom) [])
    as (Hnone & _ & _ & Hempty).
  split; [exact Hnone | apply Hempty; computed].
Defined.

Lemma C10_witness :
  exists d log1 h',
    __init__ (TU := dom) (Some Sample.with_keys) [] = (inr d, log1) /\
    parse_times (TU := dom) 2 Sample.with_keys {| self := d; logged := log1 |}
      = (inr tt, h') /\
    length (ssh_pubkeys (self h')) = 6 /\
    length (ssh_keypairs (self h')) = 3.
Proof.
  edestruct (C10_parse_again_appends (TU := dom) Sample.with_keys)
    as (_ & _ & Hmany); [computed | reached | computed | computed |].
  destruct (Hmany 2 []) as (d & log1 & h' & Hinit & Hrun & _ & _ & Hn & Hm).
  exists d, log1, h'.
  repeat apply conj; [exact Hinit | exact Hrun | exact Hn | exact Hm].
Defined.

(** * Further properties of the parser *)

Section More.
Context {TU : TextUtil}.

(** A [parse] that raises has left the object as it was, or has
    overwritten its host name, or its host name and user name: the two
    are assigned before they are checked. *)
Lemma parse_raises_state (xml_text : string) (h h' : Heap) (e : Exn) :
  parse xml_text h = (inl e, h') ->
  self h' = self h \/
  (e = ProtocolError (format_failed "HostName not found") /\
   self h' = set_hostname None (self h)) \/
  (exists host,
     e = ProtocolError (format_failed "UserName not found") /\
     self h' = set_username None (set_hostname (Some host) (self h))).
Proof.
  intros Hrun. revert Hrun.
  unfold parse, bind, _validate_ovf, raise, ret. cbv beta iota zeta.
  destruct (parse_doc xml_text) as [xml_doc|];
    [| intros H; injection H as _ <-; now left].
  destruct (find xml_doc "Environment" OVF_NAME_SPACE) as [environment|];
    [| intros H; injection H as _ <-; now left].
  destruct (find environment "ProvisioningSection" WA_NAME_SPACE) as [section|];
    [| intros H; injection H as _ <-; now left].
  destruct (findtext environment "Version" WA_NAME_SPACE) as [version|];
    [| intros H; injection H as _ <-; now left].
  assert (Hlog : exists out,
             (if str_gt version OVF_VERSION
              then logger (Warn MSG_NEWER)
              else fun h0 : Heap => (inr tt, h0)) h =
             (inr tt, {| self := self h; logged := logged h ++ out |})).
  { destruct (str_gt version OVF_VERSION).
    - exists [Warn MSG_NEWER]. reflexivity.
    - exists []. rewrite app_nil_r. destruct h; reflexivity. }
  destruct Hlog as [out ->].
  destruct (find section "LinuxProvisioningConfigurationSet" WA_NAME_SPACE)
    as [conf_set|];
    [| intros H; injection H as _ <-; now left].
  rewrite assign_run, getattr_run.
  cbn [self logged hostname set_hostname].
  destruct (findtext conf_set "HostName" WA_NAME_SPACE) as [host|];
    [| intros H; injection H as <- <-; right; left; split; reflexivity].
  rewrite assign_run, getattr_run.
  cbn [self logged username set_username].
  destruct (findtext conf_set "UserName" WA_NAME_SPACE) as [user|];
    [| intros H; injection H as <- <-; right; right; exists host;
       split; reflexivity].
  rewrite !assign_run. cbv beta iota zeta.
  destruct (match findtext conf_set "DisableSshPasswordAuthentication"
                    WA_NAME_SPACE with
            | Some a => String.eqb (lower a) "true"
            | None => false
            end);
    rewrite assign_run; cbv beta iota zeta;
    rewrite for_each_pubkeys; cbv beta iota zeta;
    rewrite for_each_keypairs; discriminate.
Qed.

(** X1. UserPassword and CustomData are optional: where the required
    elements are there the constructor returns whether or not the two
    are, and the descriptor's user_password and customdata are what the
    lookup gives for them, unset when it gives nothing. *)
Theorem X1_password_and_customdata_are_optional
        (xml_text : string) (xml_doc conf_set : Node)
        (version host user : string) (log : list LogRecord) :
  parse_doc xml_text = Some xml_doc ->
  Reaches xml_doc version conf_set ->
  findtext conf_set "HostName" WA_NAME_SPACE = Some host ->
  findtext conf_set "UserName" WA_NAME_SPACE = Some user ->
  exists d log',
    __init__ (Some xml_text) log = (inr d, log') /\
    user_password d = findtext conf_set "UserPassword" WA_NAME_SPACE /\
    customdata d = findtext conf_set "CustomData" WA_NAME_SPACE.
Proof.
  intros Hdoc Hreach Hhost Huser.
  eexists. eexists. split.
  - apply (init_returns _ _ _ _ _ _ log Hdoc Hreach Hhost Huser).
  - split; reflexivity.
Qed.

(** X2. A call of [parse] that raises never touches the password, the
    custom data, the flag or the key lists of the object it was called
    on.  The host name and the user name are assigned before they are
    checked: when HostName is missing the object's host name has been
    cleared, when UserName is missing its host name has been replaced
    and its user name cleared, and on every other failure the object is
    as it was. *)
Theorem X2_failed_parse_keeps_all_but_names
        (xml_text : string) (h h' : Heap) (e : Exn) :
  parse xml_text h = (inl e, h') ->
  user_password (self h') = user_password (self h) /\
  customdata (self h') = customdata (self h) /\
  disable_ssh_password_auth (self h') = disable_ssh_password_auth (self h) /\
  ssh_pubkeys (self h') = ssh_pubkeys (self h) /\
  ssh_keypairs (self h') = ssh_keypairs (self h) /\
  (self h' = self h \/
   (e = ProtocolError "Failed to parse OVF XML: HostName not found" /\
    hostname (self h') = None /\ username (self h') = username (self h)) \/
   (exists host,
      e = ProtocolError "Failed to parse OVF XML: UserName not found" /\
      hostname (self h') = Some host /\ username (self h') = None)).
Proof.
  intros Hrun.
  destruct (parse_raises_state _ _ _ _ Hrun)
    as [Hself | [[He Hself] | (host & He & Hself)]]; rewrite Hself.
  - repeat split; try reflexivity. now left.
  - repeat split; try reflexivity. right; left. subst e. repeat split.
  - repeat split; try reflexivity. right; right. exists host.
    subst e. repeat split.
Qed.

(** X3. The warning is sent as soon as the version is read: with a
    Version text greater than "1.0" the constructor has logged its
    opening message and the warning whatever the rest of the document
    is, also when it then raises for a missing element; with a Version
    text not greater it has logged the opening message alone. *)
Theorem X3_warning_is_logged_before_the_rest_is_read
        (xml_text : string) (xml_doc environment section : Node)
        (version : string) (log : list LogRecord) :
  parse_doc xml_text = Some xml_doc ->
  find xml_doc "Environment" OVF_NAME_SPACE = Some environment ->
  find environment "ProvisioningSection" WA_NAME_SPACE = Some section ->
  findtext environment "Version" WA_NAME_SPACE = Some version ->
  snd (__init__ (Some xml_text) log) =
  log ++ Verb MSG_LOAD ::
    (if str_gt version OVF_VERSION then [Warn MSG_NEWER] else []).
Proof.
  intros Hdoc Henv Hsec Hver.
  change (if str_gt version OVF_VERSION then [Warn MSG_NEWER] else [])
    with (version_log version).
  destruct (path_cases xml_text)
    as [Hnone | [(xml_doc' & name & Hdoc' & Hmiss)
                | (xml_doc' & version' & conf_set & host & user
                   & Hdoc' & Hreach & Hhost & Huser)]].
  - rewrite Hdoc in Hnone. discriminate.
  - rewrite Hdoc in Hdoc'. injection Hdoc' as <-.
    rewrite init_some.
    destruct Hmiss as
      [He | e0 He Hs | e0 s0 He Hs Hv | e0 s0 v0 He Hs Hv Hc
       | e0 s0 v0 c0 He Hs Hv Hc Hh | e0 s0 v0 c0 h0 He Hs Hv Hc Hh Hu];
      rewrite Henv in He; try discriminate; injection He as <-;
      rewrite Hsec in Hs; try discriminate; injection Hs as <-;
      rewrite Hver in Hv; try discriminate; injection Hv as <-.
    + unfold parse, bind, _validate_ovf, raise, ret. cbv beta iota zeta.
      rewrite Hdoc, Henv, Hsec, Hver. cbv beta iota zeta.
      unfold version_log.
      destruct (str_gt version OVF_VERSION);
        rewrite ?logger_run; cbv beta iota zeta; rewrite Hc;
        cbn [snd logged]; rewrite <- ?app_assoc; reflexivity.
    + unfold parse, bind, _validate_ovf, raise, ret. cbv beta iota zeta.
      rewrite Hdoc, Henv, Hsec, Hver. cbv beta iota zeta.
      unfold version_log.
      destruct (str_gt version OVF_VERSION);
        rewrite ?logger_run; cbv beta iota zeta; rewrite Hc;
        cbv beta iota zeta; rewrite assign_run, getattr_run;
        cbn [self logged hostname set_hostname]; rewrite Hh;
        cbn [snd logged]; rewrite <- ?app_assoc; reflexivity.
    + unfold parse, bind, _validate_ovf, raise, ret. cbv beta iota zeta.
      rewrite Hdoc, Henv, Hsec, Hver. cbv beta iota zeta.
      unfold version_log.
      destruct (str_gt version OVF_VERSION);
        rewrite ?logger_run; cbv beta iota zeta; rewrite Hc;
        cbv beta iota zeta; rewrite assign_run, getattr_run;
        cbn [self logged hostname set_hostname]; rewrite Hh;
        cbv beta iota zeta; rewrite assign_run, getattr_run;
        cbn [self logged username set_username]; rewrite Hu;
        cbn [snd logged]; rewrite <- ?app_assoc; reflexivity.
  - rewrite Hdoc in Hdoc'. injection Hdoc' as <-.
    rewrite (init_returns _ _ _ _ _ _ log Hdoc Hreach Hhost Huser).
    destruct Hreach as [e0 s0 He Hs Hv Hc].
    rewrite Henv in He. injection He as <-.
    rewrite Hver in Hv. injection Hv as <-.
    reflexivity.
Qed.

(** X4. Parsing a second document on a constructed object mixes the two:
    host name, user name, password, custom data and flag are those of
    the second document alone, and the key lists are those of the first
    document followed by those of the second. *)
Theorem X4_second_document_replaces_fields_and_appends_keys
        (text1 text2 : string) (doc1 doc2 conf1 conf2 : Node)
        (version1 version2 host1 host2 user1 user2 : string)
        (log : list LogRecord) :
  parse_doc text1 = Some doc1 ->
  Reaches doc1 version1 conf1 ->
  findtext conf1 "HostName" WA_NAME_SPACE = Some host1 ->
  findtext conf1 "UserName" WA_NAME_SPACE = Some user1 ->
  parse_doc text2 = Some doc2 ->
  Reaches doc2 version2 conf2 ->
  findtext conf2 "HostName" WA_NAME_SPACE = Some host2 ->
  findtext conf2 "UserName" WA_NAME_SPACE = Some user2 ->
  exists d log1 h',
    __init__ (Some text1) log = (inr d, log1) /\
    parse text2 {| self := d; logged := log1 |} = (inr tt, h') /\
    hostname (self h') = Some host2 /\
    username (self h') = Some user2 /\
    user_password (self h') = findtext conf2 "UserPassword" WA_NAME_SPACE /\
    customdata (self h') = findtext conf2 "CustomData" WA_NAME_SPACE /\
    disable_ssh_password_auth (self h') =
      says_true (findtext conf2 "DisableSshPasswordAuthentication" WA_NAME_SPACE) /\
    ssh_pubkeys (self h') =
      map read_pubkey (findall conf1 "PublicKey" WA_NAME_SPACE) ++
      map read_pubkey (findall conf2 "PublicKey" WA_NAME_SPACE) /\
    ssh_keypairs (self h') =
      map read_keypair (findall conf1 "KeyPair" WA_NAME_SPACE) ++
      map read_keypair (findall conf2 "KeyPair" WA_NAME_SPACE).
Proof.
  intros Hdoc1 Hreach1 Hhost1 Huser1 Hdoc2 Hreach2 Hhost2 Huser2.
  eexists. eexists. eexists. split.
  - apply (init_returns _ _ _ _ _ _ log Hdoc1 Hreach1 Hhost1 Huser1).
  - split.
    + apply (parse_returns _ _ _ _ _ _ _ Hdoc2 Hreach2 Hhost2 Huser2).
    + cbn [self parsed fresh hostname username user_password customdata
           disable_ssh_password_auth ssh_pubkeys ssh_keypairs app].
      repeat split.
Qed.

End More.

(** ** The flag and the version, character by character *)

Lemma lower_ascii_t (c : ascii) :
  lower_ascii c = "t"%char <-> c = "t"%char \/ c = "T"%char.
Proof.
  split.
  - destruct c as [[] [] [] [] [] [] [] []];
      intros H; vm_compute in H; try discriminate H; auto.
  - intros [-> | ->]; reflexivity.
Qed.

Lemma lower_ascii_r (c : ascii) :
  lower_ascii c = "r"%char <-> c = "r"%char \/ c = "R"%char.
Proof.
  split.
  - destruct c as [[] [] [] [] [] [] [] []];
      intros H; vm_compute in H; try discriminate H; auto.
  - intros [-> | ->]; reflexivity.
Qed.

Lemma lower_ascii_u (c : ascii) :
  lower_ascii c = "u"%char <-> c = "u"%char \/ c = "U"%char.
Proof.
  split.
  - destruct c as [[] [] [] [] [] [] [] []];
      intros H; vm_compute in H; try discriminate H; auto.
  - intros [-> | ->]; reflexivity.
Qed.

Lemma lower_ascii_e (c : ascii) :
  lower_ascii c = "e"%char <-> c = "e"%char \/ c = "E"%char.
Proof.
  split.
  - destruct c as [[] [] [] [] [] [] [] []];
      intros H; vm_compute in H; try discriminate H; auto.
  - intros [-> | ->]; reflexivity.
Qed.

(** The texts that read as true: the four letters, each in either case,
    and nothing before, between or after them. *)
Definition spells_true (a : string) : Prop :=
  exists c1 c2 c3 c4,
    a = String c1 (String c2 (String c3 (String c4 EmptyString))) /\
    (c1 = "t"%char \/ c1 = "T"%char) /\
    (c2 = "r"%char \/ c2 = "R"%char) /\
    (c3 = "u"%char \/ c3 = "U"%char) /\
    (c4 = "e"%char \/ c4 = "E"%char).

Lemma lower_true (a : string) : lower a = "true" <-> spells_true a.
Proof.
  split.
  - destruct a as [|c1 [|c2 [|c3 [|c4 [|c5 a]]]]]; cbn [lower];
      intros H; try discriminate H.
    injection H as H1 H2 H3 H4.
    exists c1, c2, c3, c4. split; [reflexivity |].
    repeat split;
      [now apply lower_ascii_t | now apply lower_ascii_r
       | now apply lower_ascii_u | now apply lower_ascii_e].
  - intros (c1 & c2 & c3 & c4 & -> & H1 & H2 & H3 & H4).
    cbn [lower].
    apply lower_ascii_t in H1. apply lower_ascii_r in H2.
    apply lower_ascii_u in H3. apply lower_ascii_e in H4.
    rewrite H1, H2, H3, H4. reflexivity.
Qed.

Lemma newer_when_longer (s : string) :
  s <> EmptyString -> str_gt ("1.0" ++ s)%string OVF_VERSION = true.
Proof.
  destruct s as [|c s]; [contradiction | reflexivity].
Qed.

Lemma not_newer_when_first_is_small (c : ascii) (s : string) :
  Nat.ltb (nat_of_ascii c) 49 = true ->
  str_gt (String c s) OVF_VERSION = false.
Proof.
  destruct c as [[] [] [] [] [] [] [] []];
    intros H; vm_compute in H; try discriminate H; reflexivity.
Qed.

Section MoreText.
Context {TU : TextUtil}.

(** X5. On a returned descriptor disable_ssh_password_auth is true for
    exactly sixteen texts of DisableSshPasswordAuthentication: the
    letters t, r, u, e in that order, each in upper or lower case.  A
    text that holds any other character (a space or a line break around
    the word, as an indented document has) reads as false. *)
Theorem X5_flag_is_true_for_sixteen_texts
        (xml_text : string) (xml_doc conf_set : Node) (version : string)
        (log log' : list LogRecord) (d : OvfEnv) :
  parse_doc xml_text = Some xml_doc ->
  Reaches xml_doc version conf_set ->
  __init__ (Some xml_text) log = (inr d, log') ->
  (disable_ssh_password_auth d = true <->
   exists a,
     findtext conf_set "DisableSshPasswordAuthentication" WA_NAME_SPACE = Some a /\
     spells_true a) /\
  (forall a c,
     findtext conf_set "DisableSshPasswordAuthentication" WA_NAME_SPACE = Some a ->
     In c (list_ascii_of_string a) ->
     ~ In c ["t"; "T"; "r"; "R"; "u"; "U"; "e"; "E"]%char ->
     disable_ssh_password_auth d = false).
Proof.
  intros Hdoc Hreach Hrun.
  destruct (init_inr _ _ _ _ Hrun)
    as (text & xml_doc' & version' & conf_set' & host & user
        & Htext & Hdoc' & Hreach' & _ & _ & -> & _).
  injection Htext as <-.
  rewrite Hdoc in Hdoc'. injection Hdoc' as <-.
  destruct (Reaches_unique _ _ _ _ _ Hreach Hreach') as [<- <-].
  cbn [parsed disable_ssh_password_auth]. unfold says_true.
  destruct (findtext conf_set "DisableSshPasswordAuthentication" WA_NAME_SPACE)
    as [a|].
  - split; [split |].
    + intros Heq. exists a. split; [reflexivity |].
      apply lower_true. now apply String.eqb_eq.
    + intros (a' & Ha' & Hspell). injection Ha' as <-.
      apply String.eqb_eq. now apply lower_true.
    + intros a' c Ha' Hin Hother. injection Ha' as <-.
      apply String.eqb_neq. intros Hlow.
      apply lower_true in Hlow.
      destruct Hlow as (c1 & c2 & c3 & c4 & -> & H1 & H2 & H3 & H4).
      apply Hother. cbn in Hin. cbn [In].
      destruct Hin as [<- | [<- | [<- | [<- | []]]]];
        [destruct H1 as [-> | ->] | destruct H2 as [-> | ->]
         | destruct H3 as [-> | ->] | destruct H4 as [-> | ->]];
        auto 10.
  - split; [split |].
    + discriminate.
    + intros (a' & Ha' & _). discriminate.
    + intros a' c Ha'. discriminate.
Qed.

(** X6. The Version text is compared as it stands, untrimmed.  A text
    that goes on after "1.0" (a further ".0", or the line break of an
    indented document) counts as newer and draws the warning; a text
    whose first character sorts before the digit 1 (a space, a line
    break, a zero) never does, whatever version follows. *)
Theorem X6_version_is_compared_untrimmed
        (xml_text : string) (xml_doc conf_set : Node)
        (version host user : string) (log : list LogRecord) :
  parse_doc xml_text = Some xml_doc ->
  Reaches xml_doc version conf_set ->
  findtext conf_set "HostName" WA_NAME_SPACE = Some host ->
  findtext conf_set "UserName" WA_NAME_SPACE = Some user ->
  (forall more,
     version = ("1.0" ++ more)%string -> more <> EmptyString ->
     snd (__init__ (Some xml_text) log) = log ++ [Verb MSG_LOAD; Warn MSG_NEWER]) /\
  (forall c rest,
     version = String c rest -> Nat.ltb (nat_of_ascii c) 49 = true ->
     snd (__init__ (Some xml_text) log) = log ++ [Verb MSG_LOAD]).
Proof.
  intros Hdoc Hreach Hhost Huser.
  rewrite (init_returns _ _ _ _ _ _ log Hdoc Hreach Hhost Huser).
  cbn [snd]. unfold version_log. split.
  - intros more -> Hmore. now rewrite newer_when_longer.
  - intros c rest -> Hc. now rewrite not_newer_when_first_is_small.
Qed.

End MoreText.

(** * The password substitution of [copy_ovf_env] *)

Definition LF : ascii := ascii_of_nat 10.

(** No [<] in the text. *)
Fixpoint no_lt (s : string) : bool :=
  match s with
  | EmptyString => true
  | String c s' => negb (Ascii.eqb c "<") && no_lt s'
  end.

(** No [<] and no line feed in the text. *)
Fixpoint no_lt_no_lf (s : string) : bool :=
  match s with
  | EmptyString => true
  | String c s' =>
      negb (Ascii.eqb c "<") && negb (Ascii.eqb c LF) && no_lt_no_lf s'
  end.

(** The text starts with [<UserPassword>]. *)
Definition starts_open (s : string) : bool :=
  match after_literal PASSWORD_PATTERN_OPEN s with
  | Some _ => true
  | None => false
  end.

(** [<UserPassword>] stands somewhere in the text. *)
Fixpoint mentions_open (s : string) : bool :=
  starts_open s ||
  match s with
  | EmptyString => false
  | String _ s' => mentions_open s'
  end.

(** The first [<UserPassword>] of the text starts at offset [n]. *)
Fixpoint opens_first_at (n : nat) (s : string) : bool :=
  match n with
  | O => starts_open s
  | S n' =>
      match s with
      | EmptyString => false
      | String _ s' => negb (starts_open s) && opens_first_at n' s'
      end
  end.

Lemma append_assoc (a b c : string) :
  ((a ++ b) ++ c)%string = (a ++ (b ++ c))%string.
Proof.
  induction a as [|x a IH]; cbn; [reflexivity | now rewrite IH].
Qed.

Lemma after_literal_length (p s r : string) :
  after_literal p s = Some r ->
  String.length s = String.length p + String.length r.
Proof.
  revert s. induction p as [|a p IH]; intros s H; cbn [after_literal] in H.
  - injection H as <-. reflexivity.
  - destruct s as [|b s]; [discriminate |].
    destruct (Ascii.eqb a b); [| discriminate].
    cbn [String.length Nat.add]. now rewrite (IH _ H).
Qed.

Lemma after_lazy_dots_length (s r : string) :
  after_lazy_dots s = Some r -> String.length r < String.length s.
Proof.
  induction s as [|c s IH]; cbn [after_lazy_dots String.length]; intros H;
    [discriminate |].
  destruct (Ascii.eqb c "<").
  - injection H as <-. lia.
  - destruct (Ascii.eqb c (ascii_of_nat 10)); [discriminate |].
    specialize (IH H). lia.
Qed.

Lemma match_password_length (s r : string) :
  match_password s = Some r -> String.length r < String.length s.
Proof.
  unfold match_password.
  destruct (after_literal PASSWORD_PATTERN_OPEN s) as [s'|] eqn:Hlit;
    [| discriminate].
  intros H. apply after_lazy_dots_length in H.
  apply after_literal_length in Hlit. lia.
Qed.

(** Fuel beyond the length of the text changes nothing. *)
Lemma sub_password_fuel (fuel1 fuel2 : nat) (s : string) :
  String.length s < fuel1 -> String.length s < fuel2 ->
  sub_password fuel1 s = sub_password fuel2 s.
Proof.
  revert fuel2 s.
  induction fuel1 as [|fuel1 IH]; intros fuel2 s H1 H2; [lia |].
  destruct fuel2 as [|fuel2]; [lia |].
  cbn [sub_password].
  destruct (match_password s) as [rest|] eqn:Hm.
  - apply match_password_length in Hm.
    rewrite (IH fuel2 rest); [reflexivity | lia | lia].
  - destruct s as [|c s]; [reflexivity |].
    cbn [String.length] in H1, H2.
    rewrite (IH fuel2 s); [reflexivity | lia | lia].
Qed.

(** The three equations of the substitution. *)
Lemma re_sub_password_empty : re_sub_password EmptyString = EmptyString.
Proof. reflexivity. Qed.

Lemma re_sub_password_match (s rest : string) :
  match_password s = Some rest ->
  re_sub_password s = (PASSWORD_REPLACEMENT ++ re_sub_password rest)%string.
Proof.
  intros Hm. unfold re_sub_password at 1. cbn [sub_password]. rewrite Hm.
  apply match_password_length in Hm.
  unfold re_sub_password.
  rewrite (sub_password_fuel (String.length s) (S (String.length rest)) rest);
    [reflexivity | lia | lia].
Qed.

Lemma re_sub_password_copy (c : ascii) (s : string) :
  match_password (String c s) = None ->
  re_sub_password (String c s) = String c (re_sub_password s).
Proof.
  intros Hm. unfold re_sub_password at 1. cbn [sub_password]. rewrite Hm.
  reflexivity.
Qed.

Lemma match_password_not_lt (c : ascii) (s : string) :
  Ascii.eqb c "<" = false -> match_password (String c s) = None.
Proof.
  intros H. unfold match_password, PASSWORD_PATTERN_OPEN.
  cbn [after_literal]. rewrite Ascii.eqb_sym, H. reflexivity.
Qed.

Lemma match_password_not_open (s : string) :
  starts_open s = false -> match_password s = None.
Proof.
  unfold starts_open, match_password.
  destruct (after_literal PASSWORD_PATTERN_OPEN s); [discriminate | reflexivity].
Qed.

Lemma after_lazy_dots_found (pw rest : string) :
  no_lt_no_lf pw = true ->
  after_lazy_dots (pw ++ String "<" rest) = Some rest.
Proof.
  induction pw as [|c pw IH];
    cbn [no_lt_no_lf String.append after_lazy_dots]; intros H;
    [reflexivity |].
  apply andb_prop in H. destruct H as [H Hpw].
  apply andb_prop in H. destruct H as [Hlt Hlf].
  apply negb_true_iff in Hlt. apply negb_true_iff in Hlf.
  unfold LF in Hlf. rewrite Hlt, Hlf. now apply IH.
Qed.

Lemma after_lazy_dots_line_feed (line rest : string) :
  no_lt line = true ->
  after_lazy_dots (line ++ String LF rest) = None.
Proof.
  induction line as [|c line IH];
    cbn [no_lt String.append after_lazy_dots]; intros H.
  - unfold LF. destruct (Ascii.eqb (ascii_of_nat 10) "<") eqn:E;
      [discriminate E |]. now rewrite Ascii.eqb_refl.
  - apply andb_prop in H. destruct H as [Hlt Hline].
    apply negb_true_iff in Hlt. rewrite Hlt.
    destruct (Ascii.eqb c (ascii_of_nat 10)); [reflexivity | now apply IH].
Qed.

Lemma match_password_found (pw rest : string) :
  no_lt_no_lf pw = true ->
  match_password (PASSWORD_PATTERN_OPEN ++ pw ++ String "<" rest) = Some rest.
Proof.
  intros H. unfold match_password, PASSWORD_PATTERN_OPEN.
  cbn [String.append after_literal]. rewrite !Ascii.eqb_refl.
  now apply after_lazy_dots_found.
Qed.

(** Text without [<] is copied, whatever follows it. *)
Lemma re_sub_password_no_lt (u t : string) :
  no_lt u = true ->
  re_sub_password (u ++ t) = (u ++ re_sub_password t)%string.
Proof.
  induction u as [|c u IH]; cbn [no_lt String.append]; intros H;
    [reflexivity |].
  apply andb_prop in H. destruct H as [Hlt Hu].
  apply negb_true_iff in Hlt.
  rewrite re_sub_password_copy by now apply match_password_not_lt.
  now rewrite IH.
Qed.

Lemma after_literal_inv (p s r : string) :
  after_literal p s = Some r -> s = (p ++ r)%string.
Proof.
  revert s. induction p as [|a p IH]; intros s H; cbn [after_literal] in H.
  - injection H as <-. reflexivity.
  - destruct s as [|b s]; [discriminate |].
    destruct (Ascii.eqb_spec a b) as [<- |]; [| discriminate].
    cbn [String.append]. now rewrite (IH _ H).
Qed.

Lemma after_lazy_dots_inv (s r : string) :
  after_lazy_dots s = Some r ->
  exists pw, s = (pw ++ String "<" r)%string /\ no_lt_no_lf pw = true.
Proof.
  induction s as [|c s IH]; cbn [after_lazy_dots]; intros H; [discriminate |].
  destruct (Ascii.eqb_spec c "<") as [-> | Hlt].
  - injection H as <-. exists EmptyString. split; reflexivity.
  - destruct (Ascii.eqb c (ascii_of_nat 10)) eqn:Hlf; [discriminate |].
    destruct (IH H) as (pw & -> & Hpw).
    exists (String c pw). split; [reflexivity |].
    cbn [no_lt_no_lf]. unfold LF. rewrite Hlf, Hpw.
    apply Ascii.eqb_neq in Hlt. rewrite Hlt. reflexivity.
Qed.

Lemma match_password_inv (s r : string) :
  match_password s = Some r ->
  exists pw,
    s = (PASSWORD_PATTERN_OPEN ++ pw ++ String "<" r)%string /\
    no_lt_no_lf pw = true.
Proof.
  unfold match_password.
  destruct (after_literal PASSWORD_PATTERN_OPEN s) as [s'|] eqn:Hlit;
    [| discriminate].
  intros H. apply after_literal_inv in Hlit.
  destruct (after_lazy_dots_inv _ _ H) as (pw & -> & Hpw).
  exists pw. split; assumption.
Qed.

(** Up to the first [<UserPassword>] the text is copied. *)
Lemma re_sub_password_before_open (pre t : string) :
  opens_first_at (String.length pre) (pre ++ t) = true ->
  re_sub_password (pre ++ t) = (pre ++ re_sub_password t)%string.
Proof.
  induction pre as [|c pre IH];
    cbn [String.length String.append opens_first_at]; intros H;
    [reflexivity |].
  apply andb_prop in H. destruct H as [Hopen Hrest].
  apply negb_true_iff in Hopen.
  rewrite re_sub_password_copy by now apply match_password_not_open.
  now rewrite IH.
Qed.

(** X7. In a text whose first <UserPassword> is followed, on the same
    line, by a password and the < of the end tag, the substitution
    keeps what stands before the element, puts a star in place of the
    password, and goes on in the same way with what stands after that
    <. *)
Theorem X7_first_password_is_replaced_by_a_star (pre pw rest : string) :
  opens_first_at (String.length pre)
    (pre ++ PASSWORD_PATTERN_OPEN ++ pw ++ String "<" rest) = true ->
  no_lt_no_lf pw = true ->
  re_sub_password (pre ++ PASSWORD_PATTERN_OPEN ++ pw ++ String "<" rest) =
  (pre ++ "<UserPassword>*<" ++ re_sub_password rest)%string.
Proof.
  intros Hfirst Hpw.
  rewrite re_sub_password_before_open by exact Hfirst.
  rewrite (re_sub_password_match _ rest) by now apply match_password_found.
  reflexivity.
Qed.

(** X8. A text in which <UserPassword> does not stand, letter for
    letter, comes out of the substitution unchanged: so does a document
    that writes the element with a namespace prefix, password and
    all. *)
Theorem X8_text_without_the_tag_is_unchanged (s : string) :
  mentions_open s = false -> re_sub_password s = s.
Proof.
  induction s as [|c s IH]; cbn [mentions_open]; intros H; [reflexivity |].
  apply orb_false_elim in H. destruct H as [Hopen Hrest].
  rewrite re_sub_password_copy by now apply match_password_not_open.
  now rewrite IH.
Qed.

(** X9. The dot of the pattern matches no line feed.  Where a line
    feed comes after <UserPassword> before any <, as in a password
    element that is broken over lines, nothing is replaced there: the
    tag and the line that follows it are copied as they are. *)
Theorem X9_password_over_two_lines_is_kept (pre line rest : string) :
  opens_first_at (String.length pre)
    (pre ++ PASSWORD_PATTERN_OPEN ++ line ++ String LF rest) = true ->
  no_lt line = true ->
  re_sub_password (pre ++ PASSWORD_PATTERN_OPEN ++ line ++ String LF rest) =
  (pre ++ PASSWORD_PATTERN_OPEN ++ line ++ String LF (re_sub_password rest))%string.
Proof.
  intros Hfirst Hline.
  rewrite re_sub_password_before_open by exact Hfirst.
  apply f_equal.
  assert (Hnone : match_password
                    (PASSWORD_PATTERN_OPEN ++ line ++ String LF rest) = None).
  { unfold match_password, PASSWORD_PATTERN_OPEN.
    cbn [String.append after_literal]. rewrite !Ascii.eqb_refl.
    now apply after_lazy_dots_line_feed. }
  unfold PASSWORD_PATTERN_OPEN in *. cbn [String.append] in *.
  rewrite re_sub_password_copy by exact Hnone. apply f_equal.
  change (re_sub_password
            ("UserPassword>" ++ (line ++ String LF rest))%string =
          ("UserPassword>" ++ (line ++ String LF (re_sub_password rest)))%string).
  rewrite re_sub_password_no_lt by reflexivity. apply f_equal.
  rewrite re_sub_password_no_lt by exact Hline. apply f_equal.
  apply (re_sub_password_no_lt (String LF EmptyString) rest). reflexivity.
Qed.

(** What the substitution gives up to its first [<] is what the text
    had there. *)
Lemma re_sub_password_first_lt (u s r : string) :
  no_lt u = true ->
  re_sub_password s = (u ++ String "<" r)%string ->
  exists r0, s = (u ++ String "<" r0)%string.
Proof.
  revert s. induction u as [|a u IH]; intros s Hu Heq.
  - destruct s as [|c s]; [discriminate Heq |].
    destruct (match_password (String c s)) as [rest|] eqn:Hm.
    + destruct (match_password_inv _ _ Hm) as (pw & Hs & _).
      unfold PASSWORD_PATTERN_OPEN in Hs. cbn [String.append] in Hs.
      injection Hs as -> _. now exists s.
    + rewrite (re_sub_password_copy _ _ Hm) in Heq.
      cbn [String.append] in Heq. injection Heq as -> _. now exists s.
  - cbn [no_lt] in Hu. apply andb_prop in Hu. destruct Hu as [Ha Hu].
    apply negb_true_iff in Ha.
    destruct s as [|c s]; [discriminate Heq |].
    destruct (match_password (String c s)) as [rest|] eqn:Hm.
    + rewrite (re_sub_password_match _ _ Hm) in Heq.
      unfold PASSWORD_REPLACEMENT in Heq. cbn [String.append] in Heq.
      injection Heq as <- _. discriminate Ha.
    + rewrite (re_sub_password_copy _ _ Hm) in Heq.
      cbn [String.append] in Heq. injection Heq as -> Heq.
      destruct (IH _ Hu Heq) as [r0 ->]. now exists r0.
Qed.

Lemma no_lt_of_no_lt_no_lf (s : string) :
  no_lt_no_lf s = true -> no_lt s = true.
Proof.
  induction s as [|c s IH]; cbn [no_lt_no_lf no_lt]; intros H;
    [reflexivity |].
  apply andb_prop in H. destruct H as [H Hs].
  apply andb_prop in H. destruct H as [Hlt _].
  rewrite Hlt. now apply IH.
Qed.

(** Where nothing matched in the text, nothing matches in what the
    substitution made of the rest. *)
Lemma match_password_after_sub (c : ascii) (s : string) :
  match_password (String c s) = None ->
  match_password (String c (re_sub_password s)) = None.
Proof.
  intros Hnone.
  destruct (match_password (String c (re_sub_password s))) as [r|] eqn:Hm;
    [| reflexivity].
  exfalso.
  destruct (match_password_inv _ _ Hm) as (pw & Heq & Hpw).
  unfold PASSWORD_PATTERN_OPEN in Heq. cbn [String.append] in Heq.
  injection Heq as -> Heq.
  change (re_sub_password s =
          (("UserPassword>" ++ pw) ++ String "<" r)%string) in Heq.
  assert (Hu : no_lt ("UserPassword>" ++ pw)%string = true).
  { cbn [String.append no_lt]. cbn [Ascii.eqb Bool.eqb negb andb].
    now apply no_lt_of_no_lt_no_lf. }
  destruct (re_sub_password_first_lt _ _ _ Hu Heq) as [r0 ->].
  rewrite append_assoc in Hnone.
  change (match_password
            (PASSWORD_PATTERN_OPEN ++ pw ++ String "<" r0)%string = None)
    in Hnone.
  rewrite (match_password_found pw r0 Hpw) in Hnone. discriminate.
Qed.

Lemma re_sub_password_twice (n : nat) (s : string) :
  String.length s < n ->
  re_sub_password (re_sub_password s) = re_sub_password s.
Proof.
  revert s. induction n as [|n IH]; intros s Hlen; [lia |].
  destruct (match_password s) as [rest|] eqn:Hm.
  - rewrite (re_sub_password_match _ _ Hm).
    assert (Hagain : match_password
                       (PASSWORD_REPLACEMENT ++ re_sub_password rest)%string
                     = Some (re_sub_password rest)).
    { apply (match_password_found "*" (re_sub_password rest)). reflexivity. }
    rewrite (re_sub_password_match _ _ Hagain).
    apply match_password_length in Hm.
    rewrite (IH rest) by lia. reflexivity.
  - destruct s as [|c s]; [reflexivity |].
    rewrite (re_sub_password_copy _ _ Hm).
    rewrite re_sub_password_copy by now apply match_password_after_sub.
    cbn [String.length] in Hlen. rewrite (IH s) by lia. reflexivity.
Qed.

(** X10. The substitution is idempotent: run on a text that it has
    already been run on, it changes nothing. *)
Theorem X10_substitution_is_idempotent (s : string) :
  re_sub_password (re_sub_password s) = re_sub_password s.
Proof.
  apply (re_sub_password_twice (S (String.length s))). lia.
Qed.

(** * The two functions and their collaborators *)

Definition is_logger (c : Call) : bool :=
  match c with
  | logger_verb _ | logger_warn _ | logger_info _ => true
  | _ => false
  end.

Section Collaboration.
Context {TU : TextUtil} {CO : Collaborators}.

Lemma is_logger_logger_call (r : LogRecord) : is_logger (logger_call r) = true.
Proof. destruct r; reflexivity. Qed.

Lemma loggers_map (records : list LogRecord) :
  Forall (fun c => is_logger c = true) (map logger_call records).
Proof.
  induction records as [|r records IH]; cbn [map]; constructor;
    [apply is_logger_logger_call | exact IH].
Qed.

(** Sending records to the logger either sends them all or stops at
    the first call that the logger raises on. *)
Lemma send_cases (records : list LogRecord) (w : World) :
  (exists w', send records w = (inr tt, w', map logger_call records)) \/
  (exists e w' t c w0,
     send records w = (inl e, w', t) /\
     In c t /\ fst (perform c w0) = inl e /\
     Forall (fun c => is_logger c = true) t).
Proof.
  revert w. induction records as [|r records IH]; intros w.
  - left. exists w. reflexivity.
  - cbn [send map]. unfold act_bind, call.
    destruct (perform (logger_call r) w) as [[e|a] w1] eqn:Hp.
    + right. exists e, w1, [logger_call r], (logger_call r), w.
      repeat split.
      * now left.
      * now rewrite Hp.
      * constructor; [apply is_logger_logger_call | constructor].
    + destruct (IH w1) as [[w' Hs] | (e & w' & t & c & w0 & Hs & Hin & Hp' & Hall)];
        rewrite Hs.
      * left. exists w'. reflexivity.
      * right. exists e, w', (logger_call r :: t), c, w0.
        repeat split.
        -- now right.
        -- exact Hp'.
        -- constructor; [apply is_logger_logger_call | exact Hall].
Qed.

(** The constructor as an action: it returns the object of [__init__],
    or raises the exception of [__init__], or stops at a logger call
    that raised; all its calls are logger calls. *)
Lemma new_OvfEnv_cases (xml_text : string) (w : World) :
  (exists d w' t,
     new_OvfEnv xml_text w = (inr d, w', t) /\
     fst (__init__ (Some xml_text) []) = inr d /\
     Forall (fun c => is_logger c = true) t) \/
  (exists e0 w' t,
     new_OvfEnv xml_text w = (inl (Ovf e0), w', t) /\
     fst (__init__ (Some xml_text) []) = inl e0 /\
     Forall (fun c => is_logger c = true) t) \/
  (exists e w' t c w0,
     new_OvfEnv xml_text w = (inl e, w', t) /\
     In c t /\ fst (perform c w0) = inl e /\
     Forall (fun c => is_logger c = true) t).
Proof.
  unfold new_OvfEnv, act_bind.
  destruct (send_cases (snd (__init__ (Some xml_text) [])) w)
    as [[w' Hs] | (e & w' & t & c & w0 & Hs & Hin & Hp & Hall)]; rewrite Hs.
  - destruct (fst (__init__ (Some xml_text) [])) as [e0|d].
    + right; left. exists e0, w'. eexists. split; [reflexivity |].
      split; [reflexivity |]. rewrite app_nil_r. apply loggers_map.
    + left. exists d, w'. eexists. split; [reflexivity |].
      split; [reflexivity |]. rewrite app_nil_r. apply loggers_map.
  - right; right. exists e, w', t, c, w0. repeat split; assumption.
Qed.

Lemma not_logger_in (c : Call) (t : list Call) :
  Forall (fun c => is_logger c = true) t ->
  is_logger c = false -> ~ In c t.
Proof.
  intros Hall Hc Hin.
  rewrite Forall_forall in Hall. specialize (Hall _ Hin). congruence.
Qed.

End Collaboration.

Section Copying.
Context {TU : TextUtil} {CO : Collaborators}.

(** One step of a run: the next call answers or raises, the constructor
    returns, raises or is stopped by the logger, a test goes either
    way, an exception is of one class or another. *)
Ltac perform_step :=
  match goal with
  | |- context [perform ?c ?w] =>
      let H := fresh "Hcall" in
      destruct (perform c w) as [[?e | ?a] ?w] eqn:H; cbv beta iota
  | |- context [new_OvfEnv ?x ?w] =>
      let H := fresh "Hnew" in
      let Hinit := fresh "Hinit" in
      let Hlog := fresh "Hlog" in
      destruct (new_OvfEnv_cases x w)
        as [(?d & ?w & ?t & H & Hinit & Hlog)
           | [(?e & ?w & ?t & H & Hinit & Hlog)
             | (?e & ?w & ?t & ?c & ?w & H & ?Hin & ?Hraised & Hlog)]];
      rewrite H; cbv beta iota
  | |- context [if ?b then _ else _] => is_var b; destruct b; cbv beta iota
  | |- context [match ?e with Ovf _ => _ | _ => _ end] =>
      is_var e; destruct e; cbv beta iota
  end.

Ltac run_function :=
  unfold copy_ovf_env, try_except, copy_ovf_env_try, get_ovf_env,
    act_bind, call, act_ret, act_raise;
  repeat perform_step;
  intros Hrun; (injection Hrun as <- <- <- || discriminate Hrun).

Ltac in_calls :=
  repeat (progress cbn [In] || rewrite in_app_iff); solve [intuition auto].

Ltac answered H := rewrite H; reflexivity.

(** Who raised: a collaborator with IOError or OSUtilError, a
    collaborator with something else, or the constructor. *)
Ltac translated :=
  match goal with
  | H : perform ?c ?w0 = (inl (IOError ?m), _) |- _ =>
      exists c, w0, m; split; [in_calls | split; [left; answered H | reflexivity]]
  | H : perform ?c ?w0 = (inl (OSUtilError ?m), _) |- _ =>
      exists c, w0, m; split; [in_calls | split; [right; answered H | reflexivity]]
  | H : fst (perform ?c ?w0) = inl (IOError ?m) |- _ =>
      exists c, w0, m; split; [in_calls | split; [left; exact H | reflexivity]]
  | H : fst (perform ?c ?w0) = inl (OSUtilError ?m) |- _ =>
      exists c, w0, m; split; [in_calls | split; [right; exact H | reflexivity]]
  end.

Ltac passed_on :=
  match goal with
  | H : perform ?c ?w0 = (inl _, _) |- _ =>
      exists c, w0; split; [in_calls | answered H]
  | H : fst (perform ?c ?w0) = inl _ |- _ =>
      exists c, w0; split; [in_calls | exact H]
  end.

Ltac refused :=
  match goal with
  | Hinit : fst (__init__ (Some ?text) []) = inl ?e0,
    H : perform (read_file ?src ?rb) ?w0 = (inr ?text, _) |- _ =>
      exists src, w0, text, e0;
      repeat split; [in_calls | answered H | exact Hinit]
  end.

(** X11. An exception that leaves [copy_ovf_env] is never an IOError or
    an OSUtilError.  It is a ProtocolError with the text of an IOError
    or OSUtilError that a collaborator raised, or an exception of
    another class that a collaborator raised, passed on as it is, or
    the exception with which the constructor refused the document read
    from the DVD. *)
Theorem X11_copy_ovf_env_translates_io_errors
        (w w' : World) (e : Exc) (calls : list Call) :
  copy_ovf_env w = (inl e, w', calls) ->
  ((exists c w0 msg,
      In c calls /\
      (fst (perform c w0) = inl (IOError msg) \/
       fst (perform c w0) = inl (OSUtilError msg)) /\
      e = Ovf (ProtocolError msg)) \/
   (exists c w0, In c calls /\ fst (perform c w0) = inl e) \/
   (exists src w0 (text : string) e0,
      In (read_file src (Some true)) calls /\
      fst (perform (read_file src (Some true)) w0) = inr text /\
      fst (__init__ (Some text) []) = inl e0 /\
      e = Ovf e0)) /\
  (forall msg, e <> IOError msg) /\
  (forall msg, e <> OSUtilError msg).
Proof.
  run_function;
    (split; [| split; intros; discriminate]);
    first [left; translated | right; left; passed_on | right; right; refused].
Qed.

(** A call found in a list of calls is one of those listed or one of
    the constructor's logger calls. *)
Ltac which_call H :=
  repeat (progress cbn [In] in H || rewrite in_app_iff in H);
  decompose [or] H; clear H;
  try match goal with F : False |- _ => destruct F end;
  try match goal with
      | Hin : In ?c ?t, Hl : Forall _ ?t |- _ =>
          exfalso; exact (not_logger_in c t Hl eq_refl Hin)
      end;
  try congruence.

(** X12. Whatever the collaborators do and however [copy_ovf_env] ends,
    a text that it writes is the document that it read from the DVD,
    after the constructor has accepted that document and with the
    password substitution applied, and it goes to ovf-env.xml under
    the library directory; and a file that it copies is the tag file
    under the mount point, found there by isfile, and goes to the same
    name under the library directory. *)
Theorem X12_only_an_accepted_document_is_written_and_redacted
        (w w' : World) (r : Exc + OvfEnv) (calls : list Call) :
  copy_ovf_env w = (r, w', calls) ->
  (forall path contents,
     In (write_file path contents) calls ->
     exists src w0 (text : string) d w1 (lib_dir : string),
       fst (perform (read_file src (Some true)) w0) = inr text /\
       fst (__init__ (Some text) []) = inr d /\
       contents = re_sub_password text /\
       fst (perform get_lib_dir w1) = inr lib_dir /\
       path = path_join lib_dir OVF_FILE_NAME) /\
  (forall src dst,
     In (copyfile src dst) calls ->
     exists w0 (mount_point : string) w1 w2 (lib_dir : string),
       fst (perform get_dvd_mount_point w0) = inr mount_point /\
       src = path_join mount_point TAG_FILE_NAME /\
       fst (perform (isfile src) w1) = inr true /\
       fst (perform get_lib_dir w2) = inr lib_dir /\
       dst = path_join lib_dir TAG_FILE_NAME).
Proof.
  run_function; split.
  all: intros x y Hfound; which_call Hfound.
  all: match goal with
       | H : write_file _ _ = write_file _ _ |- _ => injection H as <- <-
       | H : copyfile _ _ = copyfile _ _ |- _ => injection H as <- <-
       end.
  all: match goal with
       | Hr : perform (read_file ?src (Some true)) ?w0 = (inr ?text, _),
         Hi : fst (__init__ (Some ?text) []) = inr ?d,
         Hl : perform get_lib_dir ?w1 = (inr ?lib, _)
         |- exists _ _ _ _ _ _, _ =>
           exists src, w0, text, d, w1, lib;
           repeat split; [answered Hr | exact Hi | answered Hl]
       | Hm : perform get_dvd_mount_point ?w0 = (inr ?mp, _),
         Hf : perform (isfile _) ?w1 = (inr true, _),
         Hl : perform get_lib_dir ?w2 = (inr ?lib, _)
         |- exists _ _ _ _ _, _ =>
           exists w0, mp, w1, w2, lib;
           repeat split; [answered Hm | answered Hf | answered Hl]
       end.
Qed.




(** X14. When [copy_ovf_env] returns, its object is the one that the
    constructor made of the document as it was read, the password not
    yet replaced; the document with the substitution applied has been
    written to ovf-env.xml under the library directory; the first call
    was the mount and the last two were the unmount and the eject. *)
Theorem X14_copy_ovf_env_returns_the_unredacted_object
        (w w' : World) (d : OvfEnv) (calls : list Call) :
  copy_ovf_env w = (inr d, w', calls) ->
  exists src w0 (text : string) w1 (lib_dir : string) before,
    fst (perform (read_file src (Some true)) w0) = inr text /\
    fst (__init__ (Some text) []) = inr d /\
    fst (perform get_lib_dir w1) = inr lib_dir /\
    In (write_file (path_join lib_dir OVF_FILE_NAME) (re_sub_password text))
       calls /\
    calls = mount_dvd :: before ++ [umount_dvd; eject_dvd].
Proof.
  run_function.
  all: match goal with
       | Hr : perform (read_file ?src (Some true)) ?w0 = (inr ?text, _),
         Hl : perform get_lib_dir ?w1 = (inr ?lib, _),
         Hw : perform (write_file (path_join ?lib _) _) _ = _ |- _ =>
           exists src, w0, text, w1, lib
       end.
  - eexists (_ :: _ :: t ++ [_; _; _; _; _; _; _]).
    repeat split; [answered Hcall1 | exact Hinit | answered Hcall2 | in_calls |].
    cbn [app]. rewrite <- app_assoc. reflexivity.
  - eexists (_ :: _ :: t ++ [_; _; _; _]).
    repeat split; [answered Hcall1 | exact Hinit | answered Hcall2 | in_calls |].
    cbn [app]. rewrite <- app_assoc. reflexivity.
Qed.

(** X15. [get_ovf_env] reads one file at most: ovf-env.xml under the
    library directory, with no remove_bom argument, and only after
    isfile has answered for it with true.  Where isfile answers false
    it raises ProtocolError "ovf-env.xml is missing." and has made no
    other call. *)
Theorem X15_get_ovf_env_reads_only_a_file_that_is_there
        (w w' : World) (r : Exc + OvfEnv) (calls : list Call) :
  get_ovf_env w = (r, w', calls) ->
  (forall path remove_bom,
     In (read_file path remove_bom) calls ->
     remove_bom = None /\
     exists w0 (lib_dir : string) w1,
       fst (perform get_lib_dir w0) = inr lib_dir /\
       path = path_join lib_dir OVF_FILE_NAME /\
       fst (perform (isfile path) w1) = inr true) /\
  (forall (lib_dir : string) w1 w2,
     perform get_lib_dir w = (inr lib_dir, w1) ->
     perform (isfile (path_join lib_dir OVF_FILE_NAME)) w1 = (inr false, w2) ->
     r = inl (Ovf (ProtocolError "ovf-env.xml is missing.")) /\
     calls = [get_lib_dir; isfile (path_join lib_dir OVF_FILE_NAME)]).
Proof.
  run_function; split.
  all: try (intros lib_dir w1' w2' Hlib Hfile;
            first [discriminate Hlib | injection Hlib as ? ?; subst];
            rewrite Hcall0 in Hfile;
            first [discriminate Hfile | split; reflexivity]).
  all: intros x y Hfound; which_call Hfound.
  all: match goal with
       | H : read_file _ _ = read_file _ _ |- _ => injection H as <- <-
       end.
  all: split; [reflexivity |].
  all: match goal with
       | Hl : perform get_lib_dir ?w0 = (inr ?lib, _),
         Hf : perform (isfile _) ?w1 = (inr true, _) |- _ =>
           exists w0, lib, w1;
           repeat split; [answered Hl | answered Hf]
       end.
Qed.

(** X16. [get_ovf_env] translates nothing.  An exception that leaves it
    is its own ProtocolError for the missing file, or the exception
    that a collaborator raised, an IOError of the read included, as it
    is, or the exception with which the constructor refused the text
    that was read. *)
Theorem X16_get_ovf_env_passes_exceptions_on
        (w w' : World) (e : Exc) (calls : list Call) :
  get_ovf_env w = (inl e, w', calls) ->
  e = Ovf (ProtocolError "ovf-env.xml is missing.") \/
  (exists c w0, In c calls /\ fst (perform c w0) = inl e) \/
  (exists path w0 (text : string) e0,
     In (read_file path None) calls /\
     fst (perform (read_file path None) w0) = inr text /\
     fst (__init__ (Some text) []) = inl e0 /\
     e = Ovf e0).
Proof.
  run_function;
    first [left; reflexivity | right; left; passed_on | right; right; refused].
Qed.

End Copying.

(** * The further properties on sample documents and scripted
      collaborators *)

Module More_samples.

(** A password and custom data. *)
Definition with_password : string :=
  Sample.document (Sample.section (Sample.version "1.0" ++ Sample.conf_set (
    Sample.host_and_user ++
    "<UserPassword>secret</UserPassword><CustomData>ZGF0YQ==</CustomData>"))).

(** A later version with no host name. *)
Definition newer_no_hostname : string :=
  Sample.document (Sample.section (Sample.version "2.0" ++ Sample.conf_set
    "<UserName>azureuser</UserName>")).

(** Version texts with something after 1.0 and with a space before 2.0. *)
Definition version_1_0_0 : string :=
  Sample.document (Sample.section (Sample.version "1.0.0" ++
    Sample.conf_set Sample.host_and_user)).

Definition version_space_2_0 : string :=
  Sample.document (Sample.section (Sample.version " 2.0" ++
    Sample.conf_set Sample.host_and_user)).

(** Collaborators that answer from a script: fixed paths, one text for
    every file read, one answer for every isfile, and the exceptions
    that [failing] chooses.  Their world is the list of the calls made
    so far. *)
Definition answer (text : string) (is_file : bool) (c : Call) : Answer c :=
  match c return Answer c with
  | get_ovf_env_file_path_on_dvd => "/mnt/cdrom/secure/ovf-env.xml"
  | get_lib_dir => "/var/lib/waagent"
  | get_dvd_mount_point => "/mnt/cdrom/secure"
  | read_file _ _ => text
  | isfile _ => is_file
  | mount_dvd | umount_dvd | eject_dvd => tt
  | write_file _ _ | copyfile _ _ => tt
  | logger_verb _ | logger_warn _ | logger_info _ => tt
  end.

Definition scripted (text : string) (is_file : bool)
           (failing : Call -> option Exc) : Collaborators :=
  {| World := list Call;
     perform c w :=
       (match failing c with
        | Some e => inl e
        | None => inr (answer text is_file c)
        end, w ++ [c]) |}.

Definition nothing_fails (c : Call) : option Exc := None.

Definition no_medium (c : Call) : option Exc :=
  match c with
  | mount_dvd => Some (OSUtilError "no medium")
  | _ => None
  end.

Definition unreadable (c : Call) : option Exc :=
  match c with
  | read_file _ _ => Some (IOError "permission denied")
  | _ => None
  end.

End More_samples.

Lemma X1_witness :
  exists d log',
    __init__ (TU := dom) (Some More_samples.with_password) [] = (inr d, log') /\
    user_password d = Some "secret" /\
    customdata d = Some "ZGF0YQ==".
Proof.
  epose proof (X1_password_and_customdata_are_optional (TU := dom)
                 More_samples.with_password _ _ "1.0" "myhost" "azureuser" [])
    as H.
  edestruct H as (d & log' & Hinit & Hpassword & Hdata);
    [computed | reached | computed | computed |].
  exists d, log'.
  repeat apply conj; [exact Hinit | exact Hpassword | exact Hdata].
Defined.

Lemma X2_witness :
  exists e h',
    parse (TU := dom) Sample.no_username
      {| self := Sample.with_keys_descriptor; logged := [] |} = (inl e, h') /\
    user_password (self h') = None /\
    customdata (self h') = None /\
    disable_ssh_password_auth (self h') = false /\
    ssh_pubkeys (self h') = ssh_pubkeys Sample.with_keys_descriptor /\
    ssh_keypairs (self h') = ssh_keypairs Sample.with_keys_descriptor.
Proof.
  eexists. eexists. split; [computed |].
  epose proof (X2_failed_parse_keeps_all_but_names (TU := dom)
                 Sample.no_username
                 {| self := Sample.with_keys_descriptor; logged := [] |}
                 _ _) as H.
  edestruct H as (H1 & H2 & H3 & H4 & H5 & _); [computed |].
  repeat apply conj; [exact H1 | exact H2 | exact H3 | exact H4 | exact H5].
Defined.

Lemma X3_witness :
  snd (__init__ (TU := dom) (Some More_samples.newer_no_hostname) []) =
    [Verb MSG_LOAD; Warn MSG_NEWER] /\
  fst (__init__ (TU := dom) (Some More_samples.newer_no_hostname) []) =
    inl (ProtocolError "Failed to parse OVF XML: HostName not found").
Proof.
  split; [| computed].
  eapply (X3_warning_is_logged_before_the_rest_is_read (TU := dom)
            More_samples.newer_no_hostname _ _ _ "2.0" []);
    computed.
Defined.

Lemma X4_witness :
  exists d log1 h',
    __init__ (TU := dom) (Some Sample.with_keys) [] = (inr d, log1) /\
    parse (TU := dom) Sample.newer {| self := d; logged := log1 |}
      = (inr tt, h') /\
    disable_ssh_password_auth (self h') = true /\
    ssh_pubkeys (self h') =
      [(Some "/a", Some "AA", Some "k"); (None, None, None)] /\
    ssh_keypairs (self h') = [(None, Some "BB")].
Proof.
  epose proof (X4_second_document_replaces_fields_and_appends_keys (TU := dom)
                 Sample.with_keys Sample.newer _ _ _ _
                 "1.0" "1.1" "myhost" "myhost" "azureuser" "azureuser" []) as H.
  edestruct H as (d & log1 & h' & Hinit & Hrun & _ & _ & _ & _ & Hflag & Hpub & Hpair);
    [computed | reached | computed | computed
     | computed | reached | computed | computed |].
  exists d, log1, h'.
  repeat apply conj; [exact Hinit | exact Hrun | exact Hflag | exact Hpub | exact Hpair].
Defined.

Lemma X5_witness :
  disable_ssh_password_auth Sample.newer_descriptor = true.
Proof.
  epose proof (X5_flag_is_true_for_sixteen_texts (TU := dom) Sample.newer
                 _ _ _ [] _ Sample.newer_descriptor) as H.
  edestruct H as ([_ Htrue] & _); [computed | reached | computed |].
  apply Htrue. exists "TRUE". split; [computed |].
  exists "T"%char, "R"%char, "U"%char, "E"%char. repeat split; auto.
Defined.

Lemma X6_witness :
  snd (__init__ (TU := dom) (Some More_samples.version_1_0_0) []) =
    [Verb MSG_LOAD; Warn MSG_NEWER] /\
  snd (__init__ (TU := dom) (Some More_samples.version_space_2_0) []) =
    [Verb MSG_LOAD].
Proof.
  split.
  - epose proof (X6_version_is_compared_untrimmed (TU := dom)
                   More_samples.version_1_0_0 _ _ "1.0.0" "myhost" "azureuser"
                   []) as H.
    edestruct H as [Hlonger _]; [computed | reached | computed | computed |].
    apply (Hlonger ".0"); [reflexivity | discriminate].
  - epose proof (X6_version_is_compared_untrimmed (TU := dom)
                   More_samples.version_space_2_0 _ _ " 2.0" "myhost"
                   "azureuser" []) as H.
    edestruct H as [_ Hsmall]; [computed | reached | computed | computed |].
    apply (Hsmall " "%char "2.0"); reflexivity.
Defined.

Lemma X7_witness :
  re_sub_password "<a><UserPassword>secret</UserPassword><b>x</b></a>" =
  "<a><UserPassword>*</UserPassword><b>x</b></a>".
Proof.
  exact (X7_first_password_is_replaced_by_a_star
           "<a>" "secret" "/UserPassword><b>x</b></a>" eq_refl eq_refl).
Defined.

Lemma X8_witness :
  re_sub_password "<wa:UserPassword>secret</wa:UserPassword>" =
  "<wa:UserPassword>secret</wa:UserPassword>".
Proof.
  exact (X8_text_without_the_tag_is_unchanged
           "<wa:UserPassword>secret</wa:UserPassword>" eq_refl).
Defined.

Lemma X9_witness :
  re_sub_password
    ("<a><UserPassword>sec" ++ String LF "ret</UserPassword></a>") =
  ("<a><UserPassword>sec" ++ String LF "ret</UserPassword></a>")%string.
Proof.
  exact (X9_password_over_two_lines_is_kept
           "<a>" "sec" "ret</UserPassword></a>" eq_refl eq_refl).
Defined.

Ltac listed := vm_compute; tauto.

Lemma X11_witness :
  exists e w' calls,
    copy_ovf_env (TU := dom)
      (CO := More_samples.scripted Sample.example false More_samples.no_medium)
      [] = (inl e, w', calls) /\
    e = Ovf (ProtocolError "no medium") /\
    (forall msg, e <> IOError msg) /\
    (forall msg, e <> OSUtilError msg).
Proof.
  eexists. eexists. eexists. split; [computed |].
  split; [reflexivity |].
  epose proof (X11_copy_ovf_env_translates_io_errors (TU := dom)
                 (CO := More_samples.scripted Sample.example false
                          More_samples.no_medium) [] _ _ _) as H.
  edestruct H as [_ Hnever]; [computed |]. exact Hnever.
Defined.

Lemma X12_witness :
  exists r w' calls,
    copy_ovf_env (TU := dom)
      (CO := More_samples.scripted More_samples.with_password true
               More_samples.nothing_fails)
      [] = (r, w', calls) /\
    In (write_file "/var/lib/waagent/ovf-env.xml"
          (re_sub_password More_samples.with_password)) calls /\
    exists src w0 (text : string) d w1 (lib_dir : string),
      fst (perform (Collaborators := More_samples.scripted More_samples.with_password true
                            More_samples.nothing_fails)
             (read_file src (Some true)) w0) = inr text /\
      fst (__init__ (TU := dom) (Some text) []) = inr d /\
      re_sub_password More_samples.with_password = re_sub_password text /\
      fst (perform (Collaborators := More_samples.scripted More_samples.with_password true
                            More_samples.nothing_fails)
             get_lib_dir w1) = inr lib_dir /\
      "/var/lib/waagent/ovf-env.xml" = path_join lib_dir OVF_FILE_NAME.
Proof.
  eexists. eexists. eexists. split; [computed |].
  split; [listed |].
  epose proof (X12_only_an_accepted_document_is_written_and_redacted
                 (TU := dom)
                 (CO := More_samples.scripted More_samples.with_password true
                          More_samples.nothing_fails) [] _ _ _) as H.
  edestruct H as [Hwritten _]; [computed |].
  apply (Hwritten "/var/lib/waagent/ovf-env.xml"
                  (re_sub_password More_samples.with_password)).
  listed.
Defined.


Lemma X14_witness :
  exists d w' calls,
    copy_ovf_env (TU := dom)
      (CO := More_samples.scripted More_samples.with_password true
               More_samples.nothing_fails)
      [] = (inr d, w', calls) /\
    user_password d = Some "secret" /\
    exists src w0 (text : string) w1 (lib_dir : string) before,
      fst (perform (Collaborators := More_samples.scripted More_samples.with_password true
                            More_samples.nothing_fails)
             (read_file src (Some true)) w0) = inr text /\
      fst (__init__ (TU := dom) (Some text) []) = inr d /\
      fst (perform (Collaborators := More_samples.scripted More_samples.with_password true
                            More_samples.nothing_fails)
             get_lib_dir w1) = inr lib_dir /\
      In (write_file (path_join lib_dir OVF_FILE_NAME) (re_sub_password text))
         calls /\
      calls = mount_dvd :: before ++ [umount_dvd; eject_dvd].
Proof.
  eexists. eexists. eexists. split; [computed |].
  split; [reflexivity |].
  eapply (X14_copy_ovf_env_returns_the_unredacted_object (TU := dom)
            (CO := More_samples.scripted More_samples.with_password true
                     More_samples.nothing_fails) []).
  computed.
Defined.

Lemma X15_witness :
  exists r w' calls,
    get_ovf_env (TU := dom)
      (CO := More_samples.scripted Sample.example false
               More_samples.nothing_fails)
      [] = (r, w', calls) /\
    r = inl (Ovf (ProtocolError "ovf-env.xml is missing.")) /\
    calls = [get_lib_dir; isfile "/var/lib/waagent/ovf-env.xml"].
Proof.
  eexists. eexists. eexists. split; [computed |].
  epose proof (X15_get_ovf_env_reads_only_a_file_that_is_there (TU := dom)
                 (CO := More_samples.scripted Sample.example false
                          More_samples.nothing_fails) [] _ _ _) as H.
  edestruct H as [_ Hmissing]; [computed |].
  eapply (Hmissing "/var/lib/waagent"); computed.
Defined.

Lemma X16_witness :
  exists e w' calls,
    get_ovf_env (TU := dom)
      (CO := More_samples.scripted Sample.example true
               More_samples.unreadable)
      [] = (inl e, w', calls) /\
    e = IOError "permission denied" /\
    (e = Ovf (ProtocolError "ovf-env.xml is missing.") \/
     (exists c w0,
        In c calls /\
        fst (perform (Collaborators := More_samples.scripted Sample.example true
                              More_samples.unreadable) c w0) = inl e) \/
     (exists path w0 (text : string) e0,
        In (read_file path None) calls /\
        fst (perform (Collaborators := More_samples.scripted Sample.example true
                              More_samples.unreadable)
               (read_file path None) w0) = inr text /\
        fst (__init__ (TU := dom) (Some text) []) = inl e0 /\
        e = Ovf e0)).
Proof.
  eexists. eexists. eexists. split; [computed |].
  split; [reflexivity |].
  eapply (X16_get_ovf_env_passes_exceptions_on (TU := dom)
            (CO := More_samples.scripted Sample.example true
                     More_samples.unreadable) []).
  computed.
Defined.
